(** * Oura analytics: baselines, anomaly flags and readiness forecasting

    A shallow embedding of [src/advanced_analytics.py]: the feature table
    ([create_forecast_features]), the rows and columns that reach the
    train/test split ([forecast_readiness]), the anomaly flags
    ([detect_anomalies]), the baselines ([calculate_personal_baselines]) and
    the run that chains them ([main]).

    The pandas and scikit-learn calls the module makes are modelled by their
    documented behaviour on the data the module hands them:

    - a float64 cell is an [option R]: [None] is NaN (what the specification
      calls an absent value), [Some x] is a measured value; arithmetic on the
      values is exact, so rounding is not part of the model;
    - a [Series] is the list of the cells of one column, in row order;
    - a [DataFrame] is the date of every row together with the named numeric
      columns, in column order; the dates stay attached to the rows through
      every selection, as the index of a pandas frame does;
    - a Python exception is the [Raise] outcome of a [result];
    - the fitting and scoring of the random forest is a parameter of
      [forecast_readiness]: nothing is assumed about it. *)

From Stdlib Require Import String Ascii Bool Arith ZArith Lia.
From Stdlib Require Import QArith Qround DecimalString.
From Stdlib Require Import Reals Lra.
From Stdlib Require Import List Sorted Permutation.
Import ListNotations.

Local Open Scope string_scope.
Local Open Scope list_scope.
Local Open Scope nat_scope.

(* ================================================================== *)
(** ** Python: exceptions and insertion-ordered dictionaries *)

Module Py.

Inductive exn : Type :=
| KeyError (key : string)
| ValueError (msg : string).

Inductive result (A : Type) : Type :=
| Ok (a : A)
| Raise (e : exn).
Arguments Ok {A} a.
Arguments Raise {A} e.

Definition bind {A B : Type} (m : result A) (k : A -> result B) : result B :=
  match m with
  | Ok a => k a
  | Raise e => Raise e
  end.

(** [d.get(k)] and [d[k] = v] on a dictionary that remembers the order in
    which its keys were first inserted. *)
Fixpoint dict_get {V : Type} (k : string) (d : list (string * V)) : option V :=
  match d with
  | [] => None
  | (k', v) :: rest => if String.eqb k k' then Some v else dict_get k rest
  end.

Fixpoint dict_set {V : Type} (k : string) (v : V) (d : list (string * V))
  : list (string * V) :=
  match d with
  | [] => [(k, v)]
  | (k', v') :: rest =>
      if String.eqb k k' then (k, v) :: rest else (k', v') :: dict_set k v rest
  end.

(** [str(n)] of a non-negative integer, as an f-string formats it. *)
Definition str (n : nat) : string := NilEmpty.string_of_uint (Nat.to_uint n).

End Py.

Notation "x <- m ;; k" := (Py.bind m (fun x => k))
(at level 61, m at next level, right associativity).

(* ================================================================== *)
(** ** pandas: Series and DataFrame *)

Module Pandas.

Definition Series : Type := list (option R).

(** *** Scalars: NaN propagates through arithmetic, and every comparison
    with NaN is false. *)

Definition lift2 (f : R -> R -> R) (a b : option R) : option R :=
  match a, b with
  | Some x, Some y => Some (f x y)
  | _, _ => None
  end.

Definition sub : option R -> option R -> option R := lift2 Rminus.
Definition add : option R -> option R -> option R := lift2 Rplus.
Definition mul : option R -> option R -> option R := lift2 Rmult.

Definition Rltb (x y : R) : bool := if Rlt_dec x y then true else false.

Definition lt (a b : option R) : bool :=
  match a, b with
  | Some x, Some y => Rltb x y
  | _, _ => false
  end.

Definition gt (a b : option R) : bool := lt b a.

(** *** Masks and missing values *)

(** Boolean indexing on one column: the rows whose mask entry is [True]. *)
Fixpoint compress {A : Type} (mask : list bool) (l : list A) : list A :=
  match mask, l with
  | b :: m, x :: r => if b then x :: compress m r else compress m r
  | _, _ => []
  end.

Definition isna1 (x : option R) : bool :=
  match x with Some _ => false | None => true end.

Definition isna (s : Series) : list bool := map isna1 s.
Definition notna (s : Series) : list bool := map (fun x => negb (isna1 x)) s.

(** [s.isna().any()] *)
Definition any (m : list bool) : bool := existsb (fun b => b) m.

Definition dropna (s : Series) : Series := compress (notna s) s.

(** The non-NaN values of a series, which every reduction works on. *)
Fixpoint present (s : Series) : list R :=
  match s with
  | [] => []
  | Some v :: rest => v :: present rest
  | None :: rest => present rest
  end.

Definition fillna (value : option R) (s : Series) : Series :=
  map (fun x => match x with Some v => Some v | None => value end) s.

(** *** Reductions.  All skip NaN ([skipna=True] is the default). *)

Definition sum (l : list R) : R := fold_right Rplus 0%R l.

Definition mean (s : Series) : option R :=
  let values := present s in
  match values with
  | [] => None
  | _ :: _ => Some (sum values / INR (length values))%R
  end.

(** [s.std()]: [ddof=1]; NaN unless more than [ddof] values are present. *)
Definition std (s : Series) : option R :=
  let values := present s in
  let count := length values in
  if count <=? 1 then None
  else
    let avg := (sum values / INR count)%R in
    let sqr := map (fun x => ((avg - x) * (avg - x))%R) values in
    Some (sqrt (sum sqr / INR (count - 1))).

Fixpoint insert_sorted (x : R) (l : list R) : list R :=
  match l with
  | [] => [x]
  | y :: rest => if Rle_dec x y then x :: l else y :: insert_sorted x rest
  end.

Definition sort_values (l : list R) : list R := fold_right insert_sorted [] l.

(** [s.median()]: the middle value of the sorted present values, the mean
    of the two middle ones when their number is even, NaN when none. *)
Definition median (s : Series) : option R :=
  let values := sort_values (present s) in
  let n := length values in
  match n with
  | 0 => None
  | _ =>
      if Nat.even n
      then Some ((nth (n / 2 - 1) values 0 + nth (n / 2) values 0) / 2)%R
      else Some (nth (n / 2) values 0%R)
  end.

(** *** Positional transforms *)

(** [s.shift(periods)]: rows move down by [periods] positions (up when
    negative); the vacated rows are NaN and the length is kept. *)
Definition shift (periods : Z) (s : Series) : Series :=
  let n := length s in
  if (0 <=? periods)%Z
  then firstn n (repeat None (Z.to_nat periods) ++ s)
  else
    let k := Z.to_nat (- periods) in
    skipn k s ++ repeat None (Nat.min k n).

(** The rows a fixed window of size [window] covers at row [i]: the
    trailing rows [i+1-window .. i], cut at the start of the series. *)
Definition window_rows (window i : nat) (s : Series) : Series :=
  let start := i + 1 - window in
  firstn (i + 1 - start) (skipn start s).

(** [s.rolling(window).mean()]: [min_periods] defaults to [window]; the
    result at a row is the mean of the present values in its window when
    at least [min_periods] of them are present, and NaN otherwise. *)
Definition rolling_mean (window : nat) (s : Series) : Series :=
  let minp := window in
  map (fun i =>
         let obs := present (window_rows window i s) in
         let nobs := length obs in
         if (minp <=? nobs) && (0 <? nobs)
         then Some (sum obs / INR nobs)%R
         else None)
      (seq 0 (length s)).

(** [s < scalar] and [s > scalar], element by element. *)
Definition series_lt (s : Series) (x : option R) : list bool :=
  map (fun v => lt v x) s.
Definition series_gt (s : Series) (x : option R) : list bool :=
  map (fun v => gt v x) s.

(** [m1 | m2] *)
Fixpoint mask_or (m1 m2 : list bool) : list bool :=
  match m1, m2 with
  | b1 :: r1, b2 :: r2 => (b1 || b2) :: mask_or r1 r2
  | _, _ => []
  end.

(** *** DataFrame *)

Record DataFrame : Type := mkDataFrame {
  date : list Z;                       (* one date per row, as a day number *)
  columns : list (string * Series)     (* the numeric columns, in order *)
}.

(** [len(df)] *)
Definition len (df : DataFrame) : nat := length (date df).

(** [c in df.columns] and [df[c]] for a numeric column. *)
Definition get (c : string) (df : DataFrame) : option Series :=
  Py.dict_get c (columns df).

(** [df[c] = s]: overwrites the column, or appends it as the last one. *)
Definition set (c : string) (s : Series) (df : DataFrame) : DataFrame :=
  {| date := date df; columns := Py.dict_set c s (columns df) |}.

(** [df[mask]] *)
Definition boolean_index (mask : list bool) (df : DataFrame) : DataFrame :=
  {| date := compress mask (date df);
     columns := map (fun cs => (fst cs, compress mask (snd cs))) (columns df) |}.

(** [df[cols]]: the listed columns, in the listed order. *)
Definition select (cols : list string) (df : DataFrame) : DataFrame :=
  {| date := date df;
     columns := flat_map (fun c => match get c df with
                                   | Some s => [(c, s)]
                                   | None => []
                                   end) cols |}.

(** [df.iloc[start:stop]] *)
Definition slice {A : Type} (start stop : nat) (l : list A) : list A :=
  firstn (stop - start) (skipn start l).

Definition iloc (start stop : nat) (df : DataFrame) : DataFrame :=
  {| date := slice start stop (date df);
     columns := map (fun cs => (fst cs, slice start stop (snd cs))) (columns df) |}.

(** [np.argsort] of the dates: the row positions in ascending order of
    date.  Rows of equal date keep their order here; numpy's quicksort
    leaves the order of ties open, and on tables with one row per date
    there are none. *)
Fixpoint insert_position (key : list Z) (i : nat) (order : list nat) : list nat :=
  match order with
  | [] => [i]
  | j :: rest =>
      if (nth i key 0 <=? nth j key 0)%Z
      then i :: order
      else j :: insert_position key i rest
  end.

Definition argsort (key : list Z) : list nat :=
  fold_right (insert_position key) [] (seq 0 (length key)).

(** [take]: the cells at the given positions, in that order. *)
Definition take {A : Type} (indexer : list nat) (l : list A) (d : A) : list A :=
  map (fun i => nth i l d) indexer.

(** [df.sort_values('date').reset_index(drop=True)] *)
Definition sort_by_date (df : DataFrame) : DataFrame :=
  let indexer := argsort (date df) in
  {| date := take indexer (date df) 0%Z;
     columns := map (fun cs => (fst cs, take indexer (snd cs) None)) (columns df) |}.

(** Every column has one cell per row. *)
Definition well_formed (df : DataFrame) : Prop :=
  Forall (fun cs => length (snd cs) = len df) (columns df).

End Pandas.

(* ================================================================== *)
(** ** scikit-learn: [train_test_split] without shuffling *)

Module Sklearn.
Import Py Pandas.

(** [_validate_shuffle_split] for a float [test_size] and
    [train_size=None]: the test set gets [ceil(test_size * n_samples)]
    rows, the training set the rest, and an empty training set is an
    error.  ([0.2 * n] rounds to [n/5] exactly when 5 divides [n] and is
    not an integer otherwise, so the ceiling on floats is the ceiling on
    rationals for every row count a table can have.) *)
Definition validate_shuffle_split (n_samples : nat) (test_size : Q)
  : result (nat * nat) :=
  if Qle_bool test_size 0 || Qle_bool 1 test_size
  then Raise (ValueError "test_size should be in the (0, 1) range")
  else
    let n_test := Z.to_nat (Qceiling (test_size * inject_Z (Z.of_nat n_samples))) in
    let n_train := n_samples - n_test in
    if n_train =? 0
    then Raise (ValueError "the resulting train set will be empty")
    else Ok (n_train, n_test).

Record Split : Type := mkSplit {
  X_train : DataFrame;
  X_test : DataFrame;
  y_train : Series;
  y_test : Series
}.

(** [train_test_split(X, y, test_size=..., shuffle=False)]: the first
    [n_train] rows, then the next [n_test] rows. *)
Definition train_test_split (X : DataFrame) (y : Series) (test_size : Q)
  : result Split :=
  if negb (length y =? len X)
  then Raise (ValueError "inconsistent numbers of samples")
  else
    sizes <- validate_shuffle_split (len X) test_size ;;
    let n_train := fst sizes in
    let n_test := snd sizes in
    Ok {| X_train := iloc 0 n_train X;
          X_test := iloc n_train (n_train + n_test) X;
          y_train := slice 0 n_train y;
          y_test := slice n_train (n_train + n_test) y |}.

End Sklearn.

(* ================================================================== *)
(** ** advanced_analytics.py *)

Module AdvancedAnalytics.
Import Py Pandas Sklearn.

(** *** load_processed_data *)

(** [merged_file] is the content of [oura_merged.csv] with its dates parsed,
    [None] when the file does not exist. *)
Definition load_processed_data (merged_file : option DataFrame) : option DataFrame :=
  match merged_file with
  | None => None
  | Some df => Some (sort_by_date df)
  end.

(** *** create_forecast_features *)

(** [if source in df_features.columns:
       df_features[f'{prefix}{lag}'] = df_features[source].shift(lag)] *)
Definition lag_feature (source prefix : string) (lag : nat)
           (df_features : DataFrame) : DataFrame :=
  match get source df_features with
  | Some s => set (prefix ++ str lag)%string (shift (Z.of_nat lag) s) df_features
  | None => df_features
  end.

(** [if source in df_features.columns:
       df_features[f'{prefix}{window}'] = df_features[source].rolling(window).mean()] *)
Definition roll_feature (source prefix : string) (window : nat)
           (df_features : DataFrame) : DataFrame :=
  match get source df_features with
  | Some s => set (prefix ++ str window)%string (rolling_mean window s) df_features
  | None => df_features
  end.

Definition lags : list nat := [1; 2; 3; 7].
Definition windows : list nat := [3; 7].

Definition create_forecast_features (df : DataFrame) : DataFrame :=
  let df_features := df in
  (* Lag features *)
  let df_features :=
    fold_left (fun dff lag =>
                 let dff := lag_feature "readiness_score" "readiness_lag" lag dff in
                 let dff := lag_feature "sleep_score" "sleep_lag" lag dff in
                 lag_feature "activity_score" "activity_lag" lag dff)
              lags df_features in
  (* Rolling averages *)
  let df_features :=
    fold_left (fun dff window =>
                 let dff := roll_feature "readiness_score" "readiness_roll" window dff in
                 roll_feature "sleep_score" "sleep_roll" window dff)
              windows df_features in
  (* Target: tomorrow's readiness *)
  match get "readiness_score" df_features with
  | Some s => set "target_readiness" (shift (-1) s) df_features
  | None => df_features
  end.

(** *** forecast_readiness *)

(** [c not in ['date', 'target_readiness', 'readiness_score'] and
     not c.startswith('id')] *)
Definition is_feature (c : string) : bool :=
  negb (existsb (String.eqb c) ["date"; "target_readiness"; "readiness_score"])
  && negb (String.prefix "id" c).

Definition feature_columns (df_features : DataFrame) : list string :=
  filter is_feature (map fst (columns df_features)).

(** [if df_features[col].isna().any():
       df_features[col] = df_features[col].fillna(df_features[col].median())] *)
Definition fill_column (df_features : DataFrame) (col : string) : DataFrame :=
  match get col df_features with
  | Some s =>
      if any (isna s)
      then set col (fillna (median s) s) df_features
      else df_features
  | None => df_features
  end.

Definition test_size : Q := 0.2%Q.

(** Lines 86 to 116, on the feature table of line 84: the rows kept for
    training, the median fill and the chronological split.  [Ok None] is the
    "No data after feature engineering" return. *)
Definition split_features (df_features : DataFrame) : result (option Split) :=
  match get "target_readiness" df_features with
  | None => Raise (KeyError "target_readiness")
  | Some target =>
      let df_features := boolean_index (notna target) df_features in
      let feature_cols := feature_columns df_features in
      let df_features := fold_left fill_column feature_cols df_features in
      if len df_features =? 0 then Ok None
      else
        let feature_cols := feature_columns df_features in
        (* every column of the model is float64: select_dtypes keeps them all *)
        let X := select feature_cols df_features in
        match get "target_readiness" df_features with
        | None => Raise (KeyError "target_readiness")
        | Some y =>
            sp <- train_test_split X y test_size ;;
            Ok (Some sp)
        end
  end.

Record ForecastResult : Type := mkForecastResult {
  r2 : R;
  mae : R;
  predictions : list R;
  actual : Series
}.

(** Lines 118 to 145 (standardisation, the random forest, its predictions
    and the two scores) are scikit-learn's: they enter as [fit_and_evaluate]. *)
Definition forecast_readiness (HAS_SKLEARN : bool)
           (fit_and_evaluate : Split -> result ForecastResult)
           (df : DataFrame) : result (option ForecastResult) :=
  if negb HAS_SKLEARN then Ok None
  else
    let df_features := create_forecast_features df in
    data <- split_features df_features ;;
    match data with
    | None => Ok None
    | Some sp =>
        r <- fit_and_evaluate sp ;;
        Ok (Some r)
    end.

(** *** detect_anomalies *)

(** [None] is the "Readiness score not available" return. *)
Definition detect_anomalies (df : DataFrame) : option DataFrame :=
  match get "readiness_score" df with
  | None => None
  | Some col =>
      (* Simple statistical anomaly detection *)
      let readiness := dropna col in
      let mean_score := mean readiness in
      let std_score := std readiness in
      (* Anomalies: > 2 standard deviations from mean *)
      let threshold_low := sub mean_score (mul (Some 2%R) std_score) in
      let threshold_high := add mean_score (mul (Some 2%R) std_score) in
      let anomalies :=
        boolean_index (mask_or (series_lt col threshold_low)
                               (series_gt col threshold_high)) df in
      Some anomalies
  end.

(** *** calculate_personal_baselines *)

Record Baseline : Type := mkBaseline {
  b_mean : option R;
  b_median : option R;
  b_std : option R
}.

Definition baseline_of (s : Series) : Baseline :=
  {| b_mean := mean s; b_median := median s; b_std := std s |}.

Definition add_baseline (column metric : string) (df : DataFrame)
           (baselines : list (string * Baseline)) : list (string * Baseline) :=
  match get column df with
  | Some s => dict_set metric (baseline_of s) baselines
  | None => baselines
  end.

Definition calculate_personal_baselines (df : DataFrame)
  : list (string * Baseline) :=
  let baselines := [] in
  let baselines := add_baseline "readiness_score" "readiness" df baselines in
  let baselines := add_baseline "sleep_score" "sleep" df baselines in
  let baselines := add_baseline "activity_score" "activity" df baselines in
  baselines.

(** *** main *)

Record Results : Type := mkResults {
  baselines : list (string * Baseline);
  anomalies_count : nat;
  forecast : option (R * R)            (* r2, mae *)
}.

(** [loaded] is what [load_processed_data] returned; the outcome is the
    record written to [analytics_results.json], [Ok None] when there was
    no data to load. *)
Definition main (HAS_SKLEARN : bool)
           (fit_and_evaluate : Split -> result ForecastResult)
           (loaded : option DataFrame) : result (option Results) :=
  match loaded with
  | None => Ok None
  | Some df =>
      let baselines := calculate_personal_baselines df in
      let anomalies := detect_anomalies df in
      forecast_results <- forecast_readiness HAS_SKLEARN fit_and_evaluate df ;;
      Ok (Some {| baselines := baselines;
                  anomalies_count :=
                    match anomalies with Some a => len a | None => 0 end;
                  forecast :=
                    option_map (fun r => (r2 r, mae r)) forecast_results |})
  end.

End AdvancedAnalytics.

(* ================================================================== *)
(** ** Vocabulary of the statements *)

Import Py Pandas Sklearn AdvancedAnalytics.

(** The cells of [l] when none is NaN. *)
Fixpoint all_present (l : Series) : option (list R) :=
  match l with
  | [] => Some []
  | Some v :: rest =>
      match all_present rest with
      | Some vs => Some (v :: vs)
      | None => None
      end
  | None :: rest => None
  end.

(** The rolling mean as the specification words it: at row [i], the mean of
    the [w] rows [i-w+1 .. i] when these rows exist and all hold a value. *)
Definition trailing_mean (w i : nat) (s : Series) : option R :=
  if w <=? i + 1
  then match all_present (map (fun j => nth j s None) (seq (i + 1 - w) w)) with
       | Some vs => Some (sum vs / INR w)%R
       | None => None
       end
  else None.

(** The mask of lines 167 to 169, for the readiness column [col]. *)
Definition anomaly_mask (col : Series) : list bool :=
  mask_or (series_lt col (sub (mean (dropna col)) (mul (Some 2%R) (std (dropna col)))))
          (series_gt col (add (mean (dropna col)) (mul (Some 2%R) (std (dropna col))))).

(** The frame before the target column is added (lines 52 to 65). *)
Definition lagged_and_rolled (df : DataFrame) : DataFrame :=
  fold_left (fun dff window =>
               let dff := roll_feature "readiness_score" "readiness_roll" window dff in
               roll_feature "sleep_score" "sleep_roll" window dff)
            windows
            (fold_left (fun dff lag =>
                          let dff := lag_feature "readiness_score" "readiness_lag" lag dff in
                          let dff := lag_feature "sleep_score" "sleep_lag" lag dff in
                          lag_feature "activity_score" "activity_lag" lag dff)
                       lags df).

(** What the median fill leaves in a column (lines 95 and 96). *)
Definition filled_series (s : Series) : Series :=
  if any (isna s) then fillna (median s) s else s.

(** The rows [forecast_readiness] keeps (line 87) of the feature table:
    those whose target is present. *)
Definition retained_rows (features : DataFrame) (target : Series) : DataFrame :=
  boolean_index (notna target) features.

(** The retained rows after the median fill (lines 90 to 96). *)
Definition filled_rows (features : DataFrame) (target : Series) : DataFrame :=
  fold_left fill_column (feature_columns (retained_rows features target))
            (retained_rows features target).

(** [X] and [y] as they reach [train_test_split] (lines 103 to 108). *)
Definition design_matrix (features : DataFrame) (target : Series) : DataFrame :=
  select (feature_columns (filled_rows features target)) (filled_rows features target).

Definition design_target (target : Series) : Series :=
  compress (notna target) target.

(** The names [create_forecast_features] gives to the columns it derives. *)
Definition derived_columns : list string :=
  flat_map (fun lag => [("readiness_lag" ++ str lag)%string;
                        ("sleep_lag" ++ str lag)%string;
                        ("activity_lag" ++ str lag)%string]) lags
  ++ flat_map (fun window => [("readiness_roll" ++ str window)%string;
                              ("sleep_roll" ++ str window)%string]) windows
  ++ ["target_readiness"].

(** Each derived column with the column it is computed from and the
    computation. *)
Definition derivations : list (string * string * (Series -> Series)) :=
  flat_map (fun lag =>
              [("readiness_score", ("readiness_lag" ++ str lag)%string, shift (Z.of_nat lag));
               ("sleep_score", ("sleep_lag" ++ str lag)%string, shift (Z.of_nat lag));
               ("activity_score", ("activity_lag" ++ str lag)%string, shift (Z.of_nat lag))])
           lags
  ++ flat_map (fun window =>
                 [("readiness_score", ("readiness_roll" ++ str window)%string,
                   rolling_mean window);
                  ("sleep_score", ("sleep_roll" ++ str window)%string,
                   rolling_mean window)])
              windows
  ++ [("readiness_score", "target_readiness", shift (-1))].

(** The anomaly test of lines 168 and 169 on one value. *)
Definition outside (lo hi v : R) : bool := Rltb v lo || Rltb hi v.

(** The whole run, from the file to the record of results. *)
Definition main_on_file (HAS_SKLEARN : bool)
           (fit_and_evaluate : Split -> result ForecastResult)
           (merged_file : option DataFrame) : result (option Results) :=
  main HAS_SKLEARN fit_and_evaluate (load_processed_data merged_file).

(** *** Sample tables *)

(** Nine consecutive days; readiness was not recorded on the fourth day and
    sleep was not recorded on the second. *)
Definition nine_days_readiness : Series :=
  [Some 70; Some 72; Some 71; None; Some 69;
   Some 75; Some 70; Some 71; Some 69]%R.

Definition nine_days_sleep : Series :=
  [Some 80; None; Some 82; Some 78; Some 85;
   Some 81; Some 79; Some 83; Some 80]%R.

Definition nine_days : DataFrame :=
  {| date := [1; 2; 3; 4; 5; 6; 7; 8; 9]%Z;
     columns := [("readiness_score", nine_days_readiness);
                 ("sleep_score", nine_days_sleep)] |}.

(** Five consecutive days with every readiness recorded and sleep missed on
    the second: four rows are kept, three to train on and one to test on. *)
Definition five_days_readiness : Series :=
  [Some 70; Some 72; Some 71; Some 69; Some 75]%R.

Definition five_days_sleep : Series :=
  [Some 80; None; Some 82; Some 78; Some 85]%R.

Definition five_days : DataFrame :=
  {| date := [1; 2; 3; 4; 5]%Z;
     columns := [("readiness_score", five_days_readiness);
                 ("sleep_score", five_days_sleep)] |}.

(** Two days of readiness: one row is left once the last row is dropped. *)
Definition two_days_readiness : Series := [Some 70; Some 72]%R.

Definition two_days : DataFrame :=
  {| date := [1; 2]%Z;
     columns := [("readiness_score", two_days_readiness)] |}.

(** One day of readiness. *)
Definition one_day_readiness : Series := [Some 70%R].

Definition one_day : DataFrame :=
  {| date := [1]%Z;
     columns := [("readiness_score", one_day_readiness)] |}.

(** Two days on which sleep was scored and readiness never was. *)
Definition readiness_unmeasured : DataFrame :=
  {| date := [1; 2]%Z;
     columns := [("readiness_score", [None; None]);
                 ("sleep_score", [Some 80; Some 82]%R)] |}.

(** Eight days with one spike of readiness. *)
Definition spike_readiness : Series :=
  [Some 70; Some 72; Some 71; Some 69; Some 150; Some 70; Some 71; Some 69]%R.

Definition spike_week : DataFrame :=
  {| date := [1; 2; 3; 4; 5; 6; 7; 8]%Z;
     columns := [("readiness_score", spike_readiness)] |}.

(** Ten days of a constant readiness of 70. *)
Definition steady_readiness : Series := repeat (Some 70%R) 10.

Definition steady_days : DataFrame :=
  {| date := [1; 2; 3; 4; 5; 6; 7; 8; 9; 10]%Z;
     columns := [("readiness_score", steady_readiness)] |}.

(** Five days as the file may hold them, out of order. *)
Definition shuffled_days : DataFrame :=
  {| date := [3; 1; 5; 2; 4]%Z;
     columns := [("readiness_score", [Some 71; Some 70; Some 75; Some 72; Some 69]%R);
                 ("sleep_score", [Some 82; Some 80; Some 85; None; Some 78]%R)] |}.

(** Two days of sleep scores and no readiness column. *)
Definition sleep_only : DataFrame :=
  {| date := [1; 2]%Z;
     columns := [("sleep_score", [Some 80; Some 82]%R)] |}.

(* ================================================================== *)
(** * Properties *)


(** ** Dictionaries and columns *)

Section Dict.
Context {V : Type}.
Implicit Types (d : list (string * V)) (k : string) (v : V).

Lemma dict_get_set_same k v d : dict_get k (dict_set k v d) = Some v.
Proof.
  induction d as [|[k' v'] d IH]; simpl.
  - now rewrite String.eqb_refl.
  - destruct (String.eqb k k') eqn:E; simpl; rewrite ?String.eqb_refl, ?E; auto.
Qed.

Lemma dict_get_set_other k k' v d :
  String.eqb k' k = false -> dict_get k' (dict_set k v d) = dict_get k' d.
Proof.
  intros Hne. induction d as [|[k0 v0] d IH]; simpl.
  - now rewrite Hne.
  - destruct (String.eqb k k0) eqn:E; simpl.
    + apply String.eqb_eq in E; subst k0. now rewrite Hne.
    + now rewrite IH.
Qed.

Lemma dict_get_In k d : In k (map fst d) <-> dict_get k d <> None.
Proof.
  induction d as [|[k0 v0] d IH]; simpl.
  - split; [tauto | congruence].
  - destruct (String.eqb k k0) eqn:E.
    + apply String.eqb_eq in E. split; [discriminate | auto].
    + apply String.eqb_neq in E. rewrite <- IH. split; [intros [?|?]|]; auto; congruence.
Qed.

Lemma dict_set_keys k v d :
  dict_get k d <> None -> map fst (dict_set k v d) = map fst d.
Proof.
  induction d as [|[k0 v0] d IH]; simpl; [congruence|].
  destruct (String.eqb k k0) eqn:E; simpl.
  - apply String.eqb_eq in E. now subst.
  - intros H. now rewrite IH.
Qed.
End Dict.

Lemma get_set_same c s df : get c (set c s df) = Some s.
Proof. apply dict_get_set_same. Qed.

Lemma get_set_other c c' s df :
  String.eqb c' c = false -> get c' (set c s df) = get c' df.
Proof. apply dict_get_set_other. Qed.

Lemma date_set c s df : date (set c s df) = date df.
Proof. reflexivity. Qed.

(** ** Lists: positions, slices and masks *)

Section Lists.
Context {A : Type}.
Implicit Types (l : list A) (d : A).

Lemma slice_as_map d l a k :
  a + k <= length l ->
  firstn k (skipn a l) = map (fun j => nth j l d) (seq a k).
Proof.
  revert l a. induction k as [|k IH]; intros l a Hlen; [reflexivity|].
  destruct (skipn a l) as [|x r] eqn:E.
  - assert (length (skipn a l) = 0) by now rewrite E.
    rewrite length_skipn in *. lia.
  - simpl. f_equal.
    + change x with (nth 0 (x :: r) d). rewrite <- E.
      rewrite nth_skipn. f_equal. lia.
    + rewrite <- (IH l (S a)) by lia.
      f_equal. replace (S a) with (1 + a) by lia.
      rewrite <- skipn_skipn, E. reflexivity.
Qed.

Lemma length_compress (mask : list bool) l :
  length mask = length l ->
  length (compress mask l) = count_occ bool_dec mask true.
Proof.
  revert l. induction mask as [|b m IH]; intros [|x r] H; simpl in *; try lia.
  destruct b; simpl; rewrite IH by lia; reflexivity.
Qed.

(** [df[mask]] keeps the rows at the positions where the mask holds. *)
Lemma compress_positions d (mask : list bool) l :
  length mask = length l ->
  compress mask l = map (fun i => nth i l d) (compress mask (seq 0 (length l))).
Proof.
  intros H.
  enough (G : forall a (pre : list A), length pre = a ->
            compress mask l
            = map (fun i => nth i (pre ++ l) d) (compress mask (seq a (length l)))).
  { now apply (G 0 []). }
  revert l H. induction mask as [|b m IH]; intros [|x r] H a pre Hpre;
    simpl in *; try lia; auto.
  assert (E : compress m r
              = map (fun i => nth i (pre ++ x :: r) d) (compress m (seq (S a) (length r)))).
  { rewrite (IH r ltac:(lia) (S a) (pre ++ [x])).
    - now rewrite <- app_assoc.
    - rewrite length_app; simpl; lia. }
  destruct b; simpl; rewrite <- E; auto.
  f_equal. rewrite app_nth2 by lia. now replace (a - length pre) with 0 by lia.
Qed.
End Lists.

Lemma nth_map_in {A B : Type} (f : A -> B) l i d d' :
  i < length l -> nth i (map f l) d' = f (nth i l d).
Proof.
  intros H. rewrite (nth_indep _ d' (f d)) by now rewrite length_map.
  apply map_nth.
Qed.

Lemma nth_map_seq {B : Type} (f : nat -> B) a n i d :
  i < n -> nth i (map f (seq a n)) d = f (a + i).
Proof.
  intros H. rewrite (nth_indep _ d (f 0)) by (rewrite length_map, length_seq; lia).
  rewrite map_nth. now rewrite seq_nth by lia.
Qed.

Lemma compress_seq_In (mask : list bool) a i :
  In i (compress mask (seq a (length mask)))
  <-> a <= i < a + length mask /\ nth (i - a) mask false = true.
Proof.
  revert a. induction mask as [|b m IH]; intros a; simpl.
  - split; [tauto | lia].
  - assert (IH' := IH (S a)).
    destruct b; simpl; rewrite IH'.
    + split.
      * intros [<-|[H1 H2]]; [rewrite Nat.sub_diag; split; [lia|auto]|].
        split; [lia|]. destruct (i - a) as [|j] eqn:E; [lia|].
        now replace j with (i - S a) by lia.
      * intros [H1 H2]. destruct (Nat.eq_dec a i); [now left|right].
        split; [lia|]. destruct (i - a) as [|j] eqn:E; [lia|].
        now replace (i - S a) with j by lia.
    + split.
      * intros [H1 H2]. split; [lia|].
        destruct (i - a) as [|j] eqn:E; [lia|].
        now replace j with (i - S a) by lia.
      * intros [H1 H2]. destruct (i - a) as [|j] eqn:E; [discriminate|].
        split; [lia|]. now replace (i - S a) with j by lia.
Qed.

(** ** Series: shift *)

Lemma length_shift p s : length (shift p s) = length s.
Proof.
  unfold shift. destruct (0 <=? p)%Z.
  - rewrite length_firstn, length_app, repeat_length. lia.
  - rewrite length_app, length_skipn, repeat_length. lia.
Qed.

(** Shifting down by [k]: row [i] holds what row [i - k] held, and the first
    [k] rows are NaN. *)
Lemma shift_lag_nth k s i :
  i < length s ->
  nth i (shift (Z.of_nat k) s) None = if k <=? i then nth (i - k) s None else None.
Proof.
  intros Hi. unfold shift.
  replace (0 <=? Z.of_nat k)%Z with true by (symmetry; apply Z.leb_le; lia).
  rewrite Nat2Z.id, nth_firstn.
  replace (i <? length s) with true by (symmetry; apply Nat.ltb_lt; lia).
  destruct (k <=? i) eqn:E.
  - apply Nat.leb_le in E. rewrite app_nth2; rewrite repeat_length; auto.
  - apply Nat.leb_gt in E. rewrite app_nth1 by (rewrite repeat_length; lia).
    apply nth_repeat.
Qed.

(** Shifting up by one: row [i] holds what row [i + 1] held; the last row,
    and every position past it, is NaN. *)
Lemma shift_lead_nth s i : nth i (shift (-1) s) None = nth (S i) s None.
Proof.
  unfold shift.
  change (0 <=? -1)%Z with false. change (Z.to_nat (- (-1))) with 1. cbv iota.
  destruct (Nat.lt_ge_cases (S i) (length s)) as [H|H].
  - rewrite app_nth1 by (rewrite length_skipn; lia).
    rewrite nth_skipn. f_equal; lia.
  - rewrite (nth_overflow s) by lia.
    rewrite app_nth2 by (rewrite length_skipn; lia).
    destruct (nth_in_or_default (i - length (skipn 1 s))
                                (repeat None (Nat.min 1 (length s)))
                                (@None R)) as [Hin|Hd]; auto.
    now apply repeat_spec in Hin.
Qed.

(** ** Series: present values *)


Lemma length_present_le s : length (present s) <= length s.
Proof. induction s as [|[v|] s IH]; simpl; lia. Qed.

Lemma all_present_Some s vs :
  all_present s = Some vs -> present s = vs /\ length vs = length s.
Proof.
  revert vs. induction s as [|[v|] s IH]; simpl; intros vs H.
  - now inversion H.
  - destruct (all_present s) as [ws|]; [|discriminate].
    inversion H; subst. destruct (IH ws eq_refl) as [-> E]. simpl. auto.
  - discriminate.
Qed.

Lemma all_present_None s : all_present s = None -> length (present s) < length s.
Proof.
  induction s as [|[v|] s IH]; simpl; intros H.
  - discriminate.
  - destruct (all_present s); [discriminate|]. specialize (IH eq_refl). lia.
  - pose proof (length_present_le s). lia.
Qed.

Lemma present_dropna s : present (dropna s) = present s.
Proof.
  unfold dropna, notna. induction s as [|[v|] s IH]; simpl; auto. now rewrite IH.
Qed.

Lemma mean_dropna s : mean (dropna s) = mean s.
Proof. unfold mean. now rewrite present_dropna. Qed.

Lemma std_dropna s : std (dropna s) = std s.
Proof. unfold std. now rewrite present_dropna. Qed.

Lemma median_dropna s : median (dropna s) = median s.
Proof. unfold median. now rewrite present_dropna. Qed.

(** ** Series: rolling mean *)


Lemma length_rolling_mean w s : length (rolling_mean w s) = length s.
Proof. unfold rolling_mean. now rewrite length_map, length_seq. Qed.

Lemma rolling_mean_nth w s i :
  0 < w -> i < length s ->
  nth i (rolling_mean w s) None = trailing_mean w i s.
Proof.
  intros Hw Hi. unfold rolling_mean.
  rewrite nth_map_seq by lia. simpl (0 + i).
  unfold trailing_mean, window_rows.
  destruct (w <=? i + 1) eqn:E.
  - apply Nat.leb_le in E.
    replace (i + 1 - (i + 1 - w)) with w by lia.
    rewrite (slice_as_map None) by lia.
    destruct (all_present _) as [vs|] eqn:P.
    + apply all_present_Some in P. destruct P as [-> L].
      rewrite length_map, length_seq in L. rewrite L.
      replace (w <=? w) with true by (symmetry; apply Nat.leb_le; lia).
      replace (0 <? w) with true by (symmetry; apply Nat.ltb_lt; lia).
      reflexivity.
    + apply all_present_None in P. rewrite length_map, length_seq in P.
      replace (w <=? _) with false by (symmetry; apply Nat.leb_gt; lia).
      reflexivity.
  - apply Nat.leb_gt in E.
    replace (i + 1 - w) with 0 by lia. rewrite Nat.sub_0_r. simpl skipn.
    pose proof (length_present_le (firstn (i + 1) s)) as P.
    rewrite length_firstn in P.
    replace (w <=? _) with false by (symmetry; apply Nat.leb_gt; lia).
    reflexivity.
Qed.

(** ** create_forecast_features: the columns it derives *)

Lemma get_lag_feature_other c src p k dff :
  String.eqb c (p ++ str k) = false ->
  get c (lag_feature src p k dff) = get c dff.
Proof.
  intros H. unfold lag_feature. destruct (get src dff); auto using get_set_other.
Qed.

Lemma get_lag_feature_same c src p k dff :
  c = (p ++ str k)%string ->
  get c (lag_feature src p k dff)
  = match get src dff with
    | Some s => Some (shift (Z.of_nat k) s)
    | None => get c dff
    end.
Proof.
  intros ->. unfold lag_feature. destruct (get src dff); auto using get_set_same.
Qed.

Lemma get_roll_feature_other c src p w dff :
  String.eqb c (p ++ str w) = false ->
  get c (roll_feature src p w dff) = get c dff.
Proof.
  intros H. unfold roll_feature. destruct (get src dff); auto using get_set_other.
Qed.

Lemma get_roll_feature_same c src p w dff :
  c = (p ++ str w)%string ->
  get c (roll_feature src p w dff)
  = match get src dff with
    | Some s => Some (rolling_mean w s)
    | None => get c dff
    end.
Proof.
  intros ->. unfold roll_feature. destruct (get src dff); auto using get_set_same.
Qed.


Lemma create_forecast_features_unfold df :
  create_forecast_features df
  = match get "readiness_score" (lagged_and_rolled df) with
    | Some s => set "target_readiness" (shift (-1) s) (lagged_and_rolled df)
    | None => lagged_and_rolled df
    end.
Proof. unfold create_forecast_features, lagged_and_rolled. reflexivity. Qed.

Ltac through_derived :=
  repeat first
    [ rewrite get_set_other by reflexivity
    | rewrite get_lag_feature_other by reflexivity
    | rewrite get_roll_feature_other by reflexivity ].

Ltac at_derived :=
  first [ rewrite get_lag_feature_same by reflexivity
        | rewrite get_roll_feature_same by reflexivity ].

(** No derived column replaces one of the three score columns. *)
Lemma lagged_and_rolled_source df src :
  In src ["readiness_score"; "sleep_score"; "activity_score"] ->
  get src (lagged_and_rolled df) = get src df.
Proof.
  intros H. unfold lagged_and_rolled. cbv [fold_left lags windows].
  simpl in H.
  repeat (destruct H as [<-|H]; [now through_derived|]).
  contradiction.
Qed.

Lemma get_features_not_target c df :
  String.eqb c "target_readiness" = false ->
  get c (create_forecast_features df) = get c (lagged_and_rolled df).
Proof.
  intros H. rewrite create_forecast_features_unfold.
  destruct (get "readiness_score" _); auto using get_set_other.
Qed.

Lemma create_forecast_features_source df src :
  In src ["readiness_score"; "sleep_score"; "activity_score"] ->
  get src (create_forecast_features df) = get src df.
Proof.
  intros H. rewrite get_features_not_target.
  - now apply lagged_and_rolled_source.
  - simpl in H. repeat (destruct H as [<-|H]; [reflexivity|]). contradiction.
Qed.

Lemma create_forecast_features_target df s :
  get "readiness_score" df = Some s ->
  get "target_readiness" (create_forecast_features df) = Some (shift (-1) s).
Proof.
  intros H. rewrite create_forecast_features_unfold.
  rewrite lagged_and_rolled_source, H by (simpl; auto).
  apply get_set_same.
Qed.

Lemma create_forecast_features_no_target df :
  get "readiness_score" df = None ->
  get "target_readiness" (create_forecast_features df) = get "target_readiness" df.
Proof.
  intros H. rewrite create_forecast_features_unfold.
  rewrite lagged_and_rolled_source, H by (simpl; auto).
  unfold lagged_and_rolled. cbv [fold_left lags windows]. now through_derived.
Qed.

Lemma date_lag_feature src p k dff : date (lag_feature src p k dff) = date dff.
Proof. unfold lag_feature. now destruct (get src dff). Qed.

Lemma date_roll_feature src p k dff : date (roll_feature src p k dff) = date dff.
Proof. unfold roll_feature. now destruct (get src dff). Qed.

Lemma date_create_forecast_features df :
  date (create_forecast_features df) = date df.
Proof.
  rewrite create_forecast_features_unfold.
  assert (E : date (lagged_and_rolled df) = date df).
  { unfold lagged_and_rolled. cbv [fold_left lags windows].
    now rewrite ?date_roll_feature, ?date_lag_feature. }
  destruct (get "readiness_score" _); [rewrite date_set|]; exact E.
Qed.

Lemma lag_column df src p k s :
  In (src, p) [("readiness_score", "readiness_lag");
               ("sleep_score", "sleep_lag");
               ("activity_score", "activity_lag")] ->
  In k lags ->
  get src df = Some s ->
  get (p ++ str k) (create_forecast_features df) = Some (shift (Z.of_nat k) s).
Proof.
  intros Hsrc Hk Hs. simpl in Hsrc, Hk.
  repeat (destruct Hsrc as [E|Hsrc]; [apply pair_equal_spec in E; destruct E as [<- <-]|]);
    try contradiction;
    repeat (destruct Hk as [<-|Hk]; try contradiction);
    (rewrite get_features_not_target by reflexivity;
     unfold lagged_and_rolled; cbv [fold_left lags windows];
     through_derived; at_derived; through_derived; now rewrite Hs).
Qed.

Lemma roll_column df src p w s :
  In (src, p) [("readiness_score", "readiness_roll");
               ("sleep_score", "sleep_roll")] ->
  In w windows ->
  get src df = Some s ->
  get (p ++ str w) (create_forecast_features df) = Some (rolling_mean w s).
Proof.
  intros Hsrc Hw Hs. simpl in Hsrc, Hw.
  repeat (destruct Hsrc as [E|Hsrc]; [apply pair_equal_spec in E; destruct E as [<- <-]|]);
    try contradiction;
    repeat (destruct Hw as [<-|Hw]; try contradiction);
    (rewrite get_features_not_target by reflexivity;
     unfold lagged_and_rolled; cbv [fold_left lags windows];
     through_derived; at_derived; through_derived; now rewrite Hs).
Qed.

(** ** Frames: reading a column after an operation *)

Lemma dict_get_map_values {V W : Type} (f : V -> W) k (d : list (string * V)) :
  dict_get k (map (fun kv => (fst kv, f (snd kv))) d) = option_map f (dict_get k d).
Proof.
  induction d as [|[k0 v0] d IH]; simpl; auto.
  destruct (String.eqb k k0); auto.
Qed.

Lemma dict_get_app {V : Type} k (d1 d2 : list (string * V)) :
  dict_get k (d1 ++ d2)
  = match dict_get k d1 with Some v => Some v | None => dict_get k d2 end.
Proof.
  induction d1 as [|[k0 v0] d1 IH]; simpl; auto.
  destruct (String.eqb k k0); auto.
Qed.

Lemma get_boolean_index c mask df :
  get c (boolean_index mask df) = option_map (compress mask) (get c df).
Proof. apply dict_get_map_values. Qed.

Lemma get_iloc c a b df :
  get c (iloc a b df) = option_map (slice a b) (get c df).
Proof. apply dict_get_map_values. Qed.

Lemma keys_boolean_index mask df :
  map fst (columns (boolean_index mask df)) = map fst (columns df).
Proof. unfold boolean_index. cbn [columns]. now rewrite map_map. Qed.

Lemma get_select c cols df :
  get c (select cols df)
  = if existsb (String.eqb c) cols then get c df else None.
Proof.
  unfold get at 1, select. cbn [columns].
  induction cols as [|col cols IH]; [reflexivity|].
  cbn [flat_map existsb]. rewrite dict_get_app, IH.
  destruct (String.eqb c col) eqn:E.
  - apply String.eqb_eq in E; subst col. cbn [orb].
    destruct (get c df) as [s|] eqn:G; cbn [dict_get].
    + now rewrite String.eqb_refl.
    + now destruct (existsb _ cols).
  - cbn [orb]. destruct (get col df); cbn [dict_get]; [rewrite E|]; reflexivity.
Qed.

(** ** The median fill *)

Lemma fillna_None s : fillna None s = s.
Proof. unfold fillna. induction s as [|[v|] s IH]; simpl; congruence. Qed.

Lemma any_isna_fillna_Some v s : any (isna (fillna (Some v) s)) = false.
Proof. unfold any, isna, fillna. induction s as [|[w|] s IH]; simpl; auto. Qed.

Lemma filled_series_idem s : filled_series (filled_series s) = filled_series s.
Proof.
  unfold filled_series. destruct (any (isna s)) eqn:E; [|now rewrite E].
  destruct (median s) as [v|] eqn:M.
  - now rewrite any_isna_fillna_Some.
  - now rewrite fillna_None, E, M, fillna_None.
Qed.

Lemma length_filled_series s : length (filled_series s) = length s.
Proof.
  unfold filled_series, fillna. destruct (any (isna s)); auto using length_map.
Qed.

(** A present cell is kept; a NaN cell receives the median of the column. *)
Lemma filled_series_nth s i :
  i < length s ->
  nth i (filled_series s) None
  = match nth i s None with Some v => Some v | None => median s end.
Proof.
  intros Hi. unfold filled_series. destruct (any (isna s)) eqn:E.
  - unfold fillna. now rewrite (nth_map_in _ s i None None).
  - destruct (nth i s None) eqn:N; auto.
    exfalso. unfold any, isna in E.
    assert (In None s) by (rewrite <- N; now apply nth_In).
    assert (existsb (fun b => b) (map isna1 s) = true); [|congruence].
    apply existsb_exists. exists true. split; auto.
    change true with (isna1 None). now apply in_map.
Qed.

Lemma get_fill_column c col dff :
  get c (fill_column dff col)
  = if String.eqb c col then option_map filled_series (get c dff) else get c dff.
Proof.
  unfold fill_column. destruct (String.eqb c col) eqn:E.
  - apply String.eqb_eq in E; subst col.
    destruct (get c dff) as [s|] eqn:G; cbn [option_map]; [|now rewrite G].
    unfold filled_series. destruct (any (isna s)); [apply get_set_same | now rewrite G].
  - destruct (get col dff) as [s|]; auto.
    destruct (any (isna s)); auto using get_set_other.
Qed.

Lemma date_fill_column col dff : date (fill_column dff col) = date dff.
Proof.
  unfold fill_column. destruct (get col dff) as [s|]; auto.
  now destruct (any (isna s)).
Qed.

Lemma keys_fill_column col dff :
  map fst (columns (fill_column dff col)) = map fst (columns dff).
Proof.
  unfold fill_column. destruct (get col dff) as [s|] eqn:G; auto.
  destruct (any (isna s)); auto.
  unfold set. cbn [columns]. apply dict_set_keys. unfold get in G. congruence.
Qed.

Lemma get_fold_fill cols : forall dff c,
  get c (fold_left fill_column cols dff)
  = if existsb (String.eqb c) cols
    then option_map filled_series (get c dff)
    else get c dff.
Proof.
  induction cols as [|col cols IH]; intros dff c; [reflexivity|].
  cbn [fold_left existsb]. rewrite IH, get_fill_column.
  destruct (String.eqb c col); cbn [orb]; destruct (existsb _ cols); auto.
  destruct (get c dff); cbn [option_map]; auto. now rewrite filled_series_idem.
Qed.

Lemma date_fold_fill cols : forall dff,
  date (fold_left fill_column cols dff) = date dff.
Proof.
  induction cols as [|col cols IH]; intros dff; [reflexivity|].
  cbn [fold_left]. now rewrite IH, date_fill_column.
Qed.

Lemma keys_fold_fill cols : forall dff,
  map fst (columns (fold_left fill_column cols dff)) = map fst (columns dff).
Proof.
  induction cols as [|col cols IH]; intros dff; [reflexivity|].
  cbn [fold_left]. now rewrite IH, keys_fill_column.
Qed.

Lemma feature_columns_In c dff :
  existsb (String.eqb c) (feature_columns dff) = true
  <-> is_feature c = true /\ get c dff <> None.
Proof.
  unfold feature_columns, get. rewrite existsb_exists. split.
  - intros [x [Hin E]]. apply String.eqb_eq in E; subst x.
    apply filter_In in Hin. now rewrite <- dict_get_In.
  - intros [Hf Hg]. exists c. rewrite String.eqb_refl, filter_In, dict_get_In. auto.
Qed.

Lemma feature_columns_fold_fill cols dff :
  feature_columns (fold_left fill_column cols dff) = feature_columns dff.
Proof. unfold feature_columns. now rewrite keys_fold_fill. Qed.

(** ** train_test_split: sizes *)

Lemma ceil_fifth n :
  Z.to_nat (Qceiling (test_size * inject_Z (Z.of_nat n))) = (n + 4) / 5.
Proof.
  unfold test_size, Qceiling, Qfloor, Qopp, Qmult, inject_Z.
  cbn [Qnum Qden].
  assert (E : (- (- (2 * Z.of_nat n) / Z.pos (10 * 1)) = (Z.of_nat n + 4) / 5)%Z).
  { change (Z.pos (10 * 1)) with 10%Z.
    pose proof (Z.div_mod (- (2 * Z.of_nat n)) 10 ltac:(lia)).
    pose proof (Z.mod_pos_bound (- (2 * Z.of_nat n)) 10 ltac:(lia)).
    pose proof (Z.div_mod (Z.of_nat n + 4) 5 ltac:(lia)).
    pose proof (Z.mod_pos_bound (Z.of_nat n + 4) 5 ltac:(lia)).
    lia. }
  rewrite E, <- (Nat2Z.id ((n + 4) / 5)). f_equal.
  rewrite Nat2Z.inj_div. f_equal. lia.
Qed.

Lemma fifth_bounds n :
  (n + 4) / 5 <= n /\ (2 <= n -> (n + 4) / 5 < n) /\ n - (n + 4) / 5 = 4 * n / 5.
Proof.
  pose proof (Nat.div_mod_eq (n + 4) 5).
  pose proof (Nat.mod_upper_bound (n + 4) 5).
  pose proof (Nat.div_mod_eq (4 * n) 5).
  pose proof (Nat.mod_upper_bound (4 * n) 5).
  lia.
Qed.

Lemma validate_shuffle_split_ok n :
  2 <= n ->
  validate_shuffle_split n test_size = Ok (n - (n + 4) / 5, (n + 4) / 5).
Proof.
  intros H. unfold validate_shuffle_split.
  change (Qle_bool test_size 0 || Qle_bool 1 test_size) with false. cbv iota.
  rewrite ceil_fifth.
  destruct (n - (n + 4) / 5 =? 0) eqn:E; auto.
  apply Nat.eqb_eq in E. pose proof (fifth_bounds n). lia.
Qed.

Lemma validate_shuffle_split_one :
  validate_shuffle_split 1 test_size
  = Raise (ValueError "the resulting train set will be empty").
Proof. reflexivity. Qed.

Lemma train_test_split_ok X y :
  length y = len X -> 2 <= len X ->
  train_test_split X y test_size
  = Ok {| X_train := iloc 0 (4 * len X / 5) X;
          X_test := iloc (4 * len X / 5) (len X) X;
          y_train := slice 0 (4 * len X / 5) y;
          y_test := slice (4 * len X / 5) (len X) y |}.
Proof.
  intros Hy Hn. unfold train_test_split.
  rewrite Hy, Nat.eqb_refl. cbn [negb].
  rewrite validate_shuffle_split_ok by assumption. cbn [bind fst snd].
  destruct (fifth_bounds (len X)) as (H1 & H2 & H3).
  rewrite H3. replace (4 * len X / 5 + (len X + 4) / 5) with (len X) by lia.
  reflexivity.
Qed.

Lemma train_test_split_one X y :
  length y = len X -> len X = 1 ->
  train_test_split X y test_size
  = Raise (ValueError "the resulting train set will be empty").
Proof.
  intros Hy Hn. unfold train_test_split.
  rewrite Hy, Nat.eqb_refl, Hn. reflexivity.
Qed.

(** ** forecast_readiness: from the feature table to the split *)

Lemma well_formed_length df c s :
  well_formed df -> get c df = Some s -> length s = len df.
Proof.
  unfold well_formed, get. intros W. induction (columns df) as [|[k v] d IH]; simpl.
  - discriminate.
  - inversion W; subst. destruct (String.eqb c k); auto.
    intros E; inversion E; subst. assumption.
Qed.

Lemma length_notna s : length (notna s) = length s.
Proof. unfold notna. apply length_map. Qed.

Lemma date_select cols df : date (select cols df) = date df.
Proof. reflexivity. Qed.

Section SplitFeatures.
Variables (features : DataFrame) (target : Series).
Hypothesis target_column : get "target_readiness" features = Some target.

Lemma len_retained_rows :
  len (retained_rows features target) = length (compress (notna target) (date features)).
Proof. reflexivity. Qed.

Lemma len_filled_rows :
  len (filled_rows features target) = len (retained_rows features target).
Proof. unfold len, filled_rows. now rewrite date_fold_fill. Qed.

Lemma len_design_matrix :
  len (design_matrix features target) = len (retained_rows features target).
Proof.
  rewrite <- len_filled_rows. unfold len, design_matrix. now rewrite date_select.
Qed.

Lemma length_design_target :
  length target = len features ->
  length (design_target target) = len (retained_rows features target).
Proof.
  intros H. rewrite len_retained_rows. unfold design_target.
  rewrite !length_compress; auto; rewrite length_notna; auto.
Qed.

Lemma target_survives_fill :
  get "target_readiness" (filled_rows features target) = Some (design_target target).
Proof.
  unfold filled_rows. rewrite get_fold_fill.
  destruct (existsb _ _) eqn:E.
  - apply feature_columns_In in E. destruct E as [E _]. discriminate E.
  - unfold retained_rows. now rewrite get_boolean_index, target_column.
Qed.

Lemma split_features_unfold :
  split_features features
  = if len (retained_rows features target) =? 0 then Ok None
    else (sp <- train_test_split (design_matrix features target)
                                 (design_target target) test_size ;;
          Ok (Some sp)).
Proof.
  unfold split_features. rewrite target_column. cbv zeta.
  fold (retained_rows features target). fold (filled_rows features target).
  rewrite len_filled_rows, target_survives_fill. reflexivity.
Qed.

Lemma split_features_empty :
  len (retained_rows features target) = 0 -> split_features features = Ok None.
Proof. intros E. now rewrite split_features_unfold, E. Qed.

Lemma split_features_one_row :
  length target = len features ->
  len (retained_rows features target) = 1 ->
  split_features features
  = Raise (ValueError "the resulting train set will be empty").
Proof.
  intros W E. rewrite split_features_unfold, E. cbn [Nat.eqb].
  rewrite train_test_split_one; auto.
  - now rewrite len_design_matrix, length_design_target.
  - now rewrite len_design_matrix.
Qed.

Lemma split_features_split :
  length target = len features ->
  2 <= len (retained_rows features target) ->
  split_features features
  = Ok (Some {| X_train := iloc 0 (4 * len (retained_rows features target) / 5)
                                (design_matrix features target);
                X_test := iloc (4 * len (retained_rows features target) / 5)
                               (len (retained_rows features target))
                               (design_matrix features target);
                y_train := slice 0 (4 * len (retained_rows features target) / 5)
                                 (design_target target);
                y_test := slice (4 * len (retained_rows features target) / 5)
                                (len (retained_rows features target))
                                (design_target target) |}).
Proof.
  intros W E. rewrite split_features_unfold.
  destruct (len (retained_rows features target) =? 0) eqn:Z;
    [apply Nat.eqb_eq in Z; lia|].
  rewrite train_test_split_ok.
  - now rewrite len_design_matrix.
  - now rewrite len_design_matrix, length_design_target.
  - now rewrite len_design_matrix.
Qed.

End SplitFeatures.

Lemma split_features_no_target features :
  get "target_readiness" features = None ->
  split_features features = Raise (KeyError "target_readiness").
Proof. intros H. unfold split_features. now rewrite H. Qed.

(** ** Well-formed frames *)

Lemma Forall_dict_set {V : Type} (P : V -> Prop) k v (d : list (string * V)) :
  Forall (fun kv => P (snd kv)) d -> P v ->
  Forall (fun kv => P (snd kv)) (dict_set k v d).
Proof.
  intros Hd Hv. induction Hd as [|[k0 v0] d H0 Hd IH]; simpl.
  - now constructor.
  - destruct (String.eqb k k0); constructor; auto.
Qed.

Lemma well_formed_set c s df :
  well_formed df -> length s = len df -> well_formed (set c s df).
Proof.
  unfold well_formed, set, len. cbn [date columns]. intros W L.
  now apply (Forall_dict_set (fun v => length v = length (date df))).
Qed.

Lemma well_formed_lag_feature src p k dff :
  well_formed dff -> well_formed (lag_feature src p k dff).
Proof.
  intros W. unfold lag_feature. destruct (get src dff) as [s|] eqn:G; auto.
  apply well_formed_set; auto.
  rewrite length_shift. eauto using well_formed_length.
Qed.

Lemma well_formed_roll_feature src p w dff :
  well_formed dff -> well_formed (roll_feature src p w dff).
Proof.
  intros W. unfold roll_feature. destruct (get src dff) as [s|] eqn:G; auto.
  apply well_formed_set; auto.
  rewrite length_rolling_mean. eauto using well_formed_length.
Qed.

Lemma well_formed_create_forecast_features df :
  well_formed df -> well_formed (create_forecast_features df).
Proof.
  intros W. rewrite create_forecast_features_unfold.
  assert (W' : well_formed (lagged_and_rolled df)).
  { unfold lagged_and_rolled. cbv [fold_left lags windows].
    repeat first [apply well_formed_roll_feature | apply well_formed_lag_feature].
    exact W. }
  destruct (get "readiness_score" (lagged_and_rolled df)) as [s|] eqn:G; auto.
  apply well_formed_set; auto.
  rewrite length_shift. eauto using well_formed_length.
Qed.

(** ** Slices and sorted dates *)

Lemma slice_partition {A : Type} (l : list A) k :
  k <= length l -> slice 0 k l ++ slice k (length l) l = l.
Proof.
  intros H. unfold slice. rewrite Nat.sub_0_r. cbn [skipn].
  rewrite (firstn_all2 (n := length l - k)) by (rewrite length_skipn; lia).
  apply firstn_skipn.
Qed.

Lemma length_slice_prefix {A : Type} (l : list A) k :
  k <= length l -> length (slice 0 k l) = k.
Proof.
  intros H. unfold slice. rewrite Nat.sub_0_r. cbn [skipn].
  rewrite length_firstn. lia.
Qed.

Lemma StronglySorted_compress (mask : list bool) (l : list Z) :
  StronglySorted Z.lt l -> StronglySorted Z.lt (compress mask l).
Proof.
  intros S. revert mask. induction S as [|x l S IH Hx]; intros [|b m]; simpl;
    try constructor.
  destruct b; auto. constructor; auto.
  assert (G : forall m', Forall (Z.lt x) (compress m' l)).
  { clear - Hx. induction Hx as [|y l Hy Hl IH]; intros [|b m']; simpl; auto.
    destruct b; auto. }
  apply G.
Qed.

Lemma StronglySorted_app_lt (a b : list Z) :
  StronglySorted Z.lt (a ++ b) ->
  forall x y, In x a -> In y b -> (x < y)%Z.
Proof.
  induction a as [|h a IH]; simpl; intros S x y Hx Hy; [contradiction|].
  inversion S as [|? ? S' F]; subst. destruct Hx as [<-|Hx].
  - rewrite Forall_forall in F. apply F, in_or_app. now right.
  - now apply IH.
Qed.

(** ** The columns that reach the split *)

Section DesignMatrix.
Variables (features : DataFrame) (target : Series).

Lemma get_filled_rows_feature c col :
  is_feature c = true ->
  get c (retained_rows features target) = Some col ->
  get c (filled_rows features target) = Some (filled_series col).
Proof.
  intros Hf Hc. unfold filled_rows. rewrite get_fold_fill.
  replace (existsb _ _) with true.
  - now rewrite Hc.
  - symmetry. apply feature_columns_In. split; congruence.
Qed.

Lemma get_filled_rows_other c :
  is_feature c = false ->
  get c (filled_rows features target) = get c (retained_rows features target).
Proof.
  intros Hf. unfold filled_rows. rewrite get_fold_fill.
  destruct (existsb _ _) eqn:E; auto.
  apply feature_columns_In in E. destruct E; congruence.
Qed.

Lemma get_design_matrix_feature c col :
  is_feature c = true ->
  get c (retained_rows features target) = Some col ->
  get c (design_matrix features target) = Some (filled_series col).
Proof.
  intros Hf Hc. unfold design_matrix. rewrite get_select.
  replace (existsb _ _) with true.
  - now apply get_filled_rows_feature.
  - symmetry. unfold filled_rows. rewrite feature_columns_fold_fill.
    apply feature_columns_In. split; congruence.
Qed.

Lemma get_design_matrix_other c :
  is_feature c = false -> get c (design_matrix features target) = None.
Proof.
  intros Hf. unfold design_matrix. rewrite get_select.
  destruct (existsb _ _) eqn:E; auto.
  apply feature_columns_In in E. destruct E; congruence.
Qed.

Lemma length_retained_column c col :
  well_formed features -> length target = len features ->
  get c (retained_rows features target) = Some col ->
  length col = len (retained_rows features target).
Proof.
  intros W L Hc. unfold retained_rows in *. rewrite get_boolean_index in Hc.
  destruct (get c features) as [col0|] eqn:G; [|discriminate].
  inversion Hc; subst col. unfold len, boolean_index. cbn [date].
  assert (L0 : length col0 = len features) by eauto using well_formed_length.
  rewrite !length_compress; auto; rewrite length_notna; unfold len in *; congruence.
Qed.

End DesignMatrix.

(* ================================================================== *)
(** * The Feature Synthesizer *)

(** C5.  For each lag [k] of 1, 2, 3 and 7 and each lagged score column, the
    lag column holds at row [i] the cell the score column holds at row
    [i - k], a value or NaN as that cell is, and NaN when [i < k].  Rows are
    counted by position in the table, whatever their dates. *)
Theorem lag_feature_reads_k_rows_back df src p k s :
  In (src, p) [("readiness_score", "readiness_lag");
               ("sleep_score", "sleep_lag");
               ("activity_score", "activity_lag")] ->
  In k [1; 2; 3; 7] ->
  get src df = Some s ->
  exists c,
    get (p ++ str k) (create_forecast_features df) = Some c
    /\ length c = length s
    /\ forall i, i < length s ->
         nth i c None = if k <=? i then nth (i - k) s None else None.
Proof.
  intros Hsrc Hk Hs. exists (shift (Z.of_nat k) s). split; [|split].
  - now apply (lag_column df src).
  - apply length_shift.
  - intros i Hi. now apply shift_lag_nth.
Qed.

Lemma lag_feature_reads_k_rows_back_witness :
  exists c,
    get ("sleep_lag" ++ str 2) (create_forecast_features nine_days) = Some c
    /\ length c = length nine_days_sleep
    /\ forall i, i < length nine_days_sleep ->
         nth i c None = if 2 <=? i then nth (i - 2) nine_days_sleep None else None.
Proof.
  apply (lag_feature_reads_k_rows_back nine_days "sleep_score" "sleep_lag" 2).
  - simpl; auto.
  - simpl; auto.
  - reflexivity.
Defined.

(** C6.  For each window [w] of 3 and 7 and each averaged score column, the
    rolling column holds at row [i] the arithmetic mean of the [w] cells of
    rows [i-w+1 .. i] when these rows exist and all hold a value, and NaN
    otherwise. *)
Theorem rolling_feature_is_trailing_mean df src p w s :
  In (src, p) [("readiness_score", "readiness_roll");
               ("sleep_score", "sleep_roll")] ->
  In w [3; 7] ->
  get src df = Some s ->
  exists c,
    get (p ++ str w) (create_forecast_features df) = Some c
    /\ length c = length s
    /\ forall i, i < length s -> nth i c None = trailing_mean w i s.
Proof.
  intros Hsrc Hw Hs. exists (rolling_mean w s). split; [|split].
  - now apply (roll_column df src).
  - apply length_rolling_mean.
  - intros i Hi. apply rolling_mean_nth; auto.
    simpl in Hw. destruct Hw as [<-|[<-|[]]]; lia.
Qed.

Lemma rolling_feature_is_trailing_mean_witness :
  exists c,
    get ("readiness_roll" ++ str 3) (create_forecast_features nine_days) = Some c
    /\ length c = length nine_days_readiness
    /\ forall i, i < length nine_days_readiness ->
         nth i c None = trailing_mean 3 i nine_days_readiness.
Proof.
  apply (rolling_feature_is_trailing_mean
           nine_days "readiness_score" "readiness_roll" 3).
  - simpl; auto.
  - simpl; auto.
  - reflexivity.
Defined.

(** C7.  The target column holds at every row the readiness of the next
    row, so the last row's target is NaN; the rows kept are exactly those
    whose target is present, so the last row is never among them, and the
    rows that reach the split are the kept ones. *)
Theorem target_is_next_readiness_and_last_row_is_dropped df s :
  get "readiness_score" df = Some s ->
  well_formed df ->
  exists target,
    get "target_readiness" (create_forecast_features df) = Some target
    /\ (forall i, nth i target None = nth (S i) s None)
    /\ nth (len df - 1) target None = None
    /\ (forall i, In i (compress (notna target) (seq 0 (len df)))
                  <-> i < len df /\ nth i target None <> None)
    /\ ~ In (len df - 1) (compress (notna target) (seq 0 (len df)))
    /\ date (retained_rows (create_forecast_features df) target)
       = map (fun i => nth i (date df) 0%Z) (compress (notna target) (seq 0 (len df)))
    /\ date (design_matrix (create_forecast_features df) target)
       = date (retained_rows (create_forecast_features df) target)
    /\ split_features (create_forecast_features df)
       = if len (retained_rows (create_forecast_features df) target) =? 0
         then Ok None
         else (sp <- train_test_split
                       (design_matrix (create_forecast_features df) target)
                       (design_target target) test_size ;;
               Ok (Some sp)).
Proof.
  intros Hs W. exists (shift (-1) s).
  pose proof (well_formed_length df _ s W Hs) as L.
  assert (Hlast : nth (len df - 1) (shift (-1) s) None = None).
  { rewrite shift_lead_nth. apply nth_overflow. lia. }
  assert (Hmask : forall i, nth i (notna (shift (-1) s)) false = true
                            <-> nth i (shift (-1) s) None <> None).
  { intros i. unfold notna.
    destruct (Nat.lt_ge_cases i (length (shift (-1) s))) as [Hi|Hi].
    - rewrite (nth_map_in _ _ i None false) by assumption.
      destruct (nth i (shift (-1) s) None); simpl; split; congruence.
    - rewrite !nth_overflow; [split; congruence| lia | now rewrite length_map]. }
  assert (Hkept : forall i, In i (compress (notna (shift (-1) s)) (seq 0 (len df)))
                            <-> i < len df /\ nth i (shift (-1) s) None <> None).
  { intros i. rewrite <- Hmask.
    replace (len df) with (length (notna (shift (-1) s)))
      by (now rewrite length_notna, length_shift).
    rewrite compress_seq_In, Nat.sub_0_r. intuition lia. }
  split; [now apply create_forecast_features_target|].
  split; [apply shift_lead_nth|].
  split; [exact Hlast|].
  split; [exact Hkept|].
  split; [rewrite Hkept; intros [_ H]; now apply H|].
  split; [|split].
  - unfold retained_rows, boolean_index. cbn [date].
    rewrite date_create_forecast_features.
    apply compress_positions. now rewrite length_notna, length_shift.
  - unfold design_matrix, filled_rows. now rewrite date_select, date_fold_fill.
  - apply split_features_unfold. now apply create_forecast_features_target.
Qed.

Lemma target_is_next_readiness_and_last_row_is_dropped_witness :
  exists target,
    get "target_readiness" (create_forecast_features nine_days) = Some target
    /\ (forall i, nth i target None = nth (S i) nine_days_readiness None)
    /\ nth (len nine_days - 1) target None = None
    /\ (forall i, In i (compress (notna target) (seq 0 (len nine_days)))
                  <-> i < len nine_days /\ nth i target None <> None)
    /\ ~ In (len nine_days - 1) (compress (notna target) (seq 0 (len nine_days)))
    /\ date (retained_rows (create_forecast_features nine_days) target)
       = map (fun i => nth i (date nine_days) 0%Z)
             (compress (notna target) (seq 0 (len nine_days)))
    /\ date (design_matrix (create_forecast_features nine_days) target)
       = date (retained_rows (create_forecast_features nine_days) target)
    /\ split_features (create_forecast_features nine_days)
       = if len (retained_rows (create_forecast_features nine_days) target) =? 0
         then Ok None
         else (sp <- train_test_split
                       (design_matrix (create_forecast_features nine_days) target)
                       (design_target target) test_size ;;
               Ok (Some sp)).
Proof.
  apply (target_is_next_readiness_and_last_row_is_dropped nine_days).
  - reflexivity.
  - repeat constructor.
Defined.

(* ================================================================== *)
(** * The Forecast Trainer/Evaluator, up to the split *)

Lemma forecast_readiness_after_split fit df sp :
  split_features (create_forecast_features df) = Ok (Some sp) ->
  forecast_readiness true fit df = (r <- fit sp ;; Ok (Some r)).
Proof. intros H. unfold forecast_readiness. cbn [negb]. cbv zeta. now rewrite H. Qed.

(** The filled column is what the split cuts in two. *)
Lemma filled_column_reaches_split features target c col :
  get "target_readiness" features = Some target ->
  well_formed features ->
  length target = len features ->
  is_feature c = true ->
  get c (retained_rows features target) = Some col ->
  2 <= len (retained_rows features target) ->
  exists sp tr te,
    split_features features = Ok (Some sp)
    /\ get c (X_train sp) = Some tr
    /\ get c (X_test sp) = Some te
    /\ tr ++ te = filled_series col
    /\ length tr = 4 * len (retained_rows features target) / 5
    /\ forall j, j < length te ->
         nth j te None
         = match nth (4 * len (retained_rows features target) / 5 + j) col None with
           | Some v => Some v
           | None => median col
           end.
Proof.
  intros Ht Wf Lt Hf Hc Hn.
  set (n := len (retained_rows features target)) in *.
  assert (Lc : length col = n) by (unfold n; eauto using length_retained_column).
  pose proof (split_features_split features target Ht Lt Hn) as Hsp.
  fold n in Hsp.
  destruct (fifth_bounds n) as (_ & _ & B).
  assert (Hk : 4 * n / 5 <= length (filled_series col))
    by (rewrite length_filled_series; lia).
  eexists.
  exists (slice 0 (4 * n / 5) (filled_series col)),
         (slice (4 * n / 5) n (filled_series col)).
  split; [exact Hsp|]. cbn [X_train X_test].
  rewrite !get_iloc, (get_design_matrix_feature features target c col Hf Hc).
  split; [reflexivity|]. split; [reflexivity|].
  split; [|split].
  - replace (slice (4 * n / 5) n (filled_series col))
      with (slice (4 * n / 5) (length (filled_series col)) (filled_series col))
      by (now rewrite length_filled_series, Lc).
    now apply slice_partition.
  - now apply length_slice_prefix.
  - intros j Hj. unfold slice in *.
    rewrite length_firstn, length_skipn, length_filled_series in Hj.
    rewrite nth_firstn.
    replace (j <? n - 4 * n / 5) with true by (symmetry; apply Nat.ltb_lt; lia).
    rewrite nth_skipn. apply filled_series_nth. lia.
Qed.

(** C8.  Among the rows kept, a feature column that has a NaN gets every NaN
    replaced by the median of that whole column, the rows that later form the
    evaluation partition included; a feature column without NaN is left as
    it is, and so is every column that is not a feature, the target among
    them; the filled column is what the split cuts into its training and
    evaluation parts. *)
Theorem median_fill_uses_whole_retained_column df s c col :
  let features := create_forecast_features df in
  let target := shift (-1) s in
  let n := len (retained_rows features target) in
  get "readiness_score" df = Some s ->
  well_formed df ->
  is_feature c = true ->
  get c (retained_rows features target) = Some col ->
  get c (filled_rows features target) = Some (filled_series col)
  /\ (forall i, i < length col ->
        nth i (filled_series col) None
        = match nth i col None with Some v => Some v | None => median col end)
  /\ (any (isna col) = false -> filled_series col = col)
  /\ (forall c', is_feature c' = false ->
        get c' (filled_rows features target) = get c' (retained_rows features target))
  /\ is_feature "target_readiness" = false
  /\ (2 <= n ->
      exists sp tr te,
        split_features features = Ok (Some sp)
        /\ get c (X_train sp) = Some tr
        /\ get c (X_test sp) = Some te
        /\ tr ++ te = filled_series col
        /\ length tr = 4 * n / 5
        /\ forall j, j < length te ->
             nth j te None
             = match nth (4 * n / 5 + j) col None with
               | Some v => Some v
               | None => median col
               end).
Proof.
  cbv zeta. intros Hs W Hf Hc.
  assert (Ht : get "target_readiness" (create_forecast_features df) = Some (shift (-1) s))
    by now apply create_forecast_features_target.
  assert (Wf : well_formed (create_forecast_features df))
    by now apply well_formed_create_forecast_features.
  assert (Lt : length (shift (-1) s) = len (create_forecast_features df)).
  { unfold len. rewrite length_shift, date_create_forecast_features.
    eauto using well_formed_length. }
  split; [now apply get_filled_rows_feature|].
  split; [intros i Hi; now apply filled_series_nth|].
  split; [unfold filled_series; now intros ->|].
  split; [intros c' Hc'; now apply get_filled_rows_other|].
  split; [reflexivity|].
  intros Hn. now apply filled_column_reaches_split.
Qed.

Lemma median_fill_uses_whole_retained_column_witness :
  get "sleep_score" (filled_rows (create_forecast_features five_days)
                                 (shift (-1) five_days_readiness))
  = Some (filled_series [Some 80; None; Some 82; Some 78]%R)
  /\ exists sp tr te,
       split_features (create_forecast_features five_days) = Ok (Some sp)
       /\ get "sleep_score" (X_train sp) = Some tr
       /\ get "sleep_score" (X_test sp) = Some te
       /\ tr ++ te = filled_series [Some 80; None; Some 82; Some 78]%R
       /\ length tr = 3.
Proof.
  destruct (median_fill_uses_whole_retained_column
              five_days five_days_readiness
              "sleep_score" [Some 80; None; Some 82; Some 78]%R)
    as (H1 & _ & _ & _ & _ & H5).
  - reflexivity.
  - repeat constructor.
  - reflexivity.
  - vm_compute. reflexivity.
  - split; [exact H1|].
    destruct H5 as (sp & tr & te & E1 & E2 & E3 & E4 & E5 & _).
    + vm_compute. lia.
    + exists sp, tr, te. auto.
Defined.

(** The split cuts the rows kept at one position, in order. *)
Lemma split_cuts_in_order features target :
  get "target_readiness" features = Some target ->
  length target = len features ->
  StronglySorted Z.lt (date features) ->
  2 <= len (retained_rows features target) ->
  exists sp,
    split_features features = Ok (Some sp)
    /\ len (X_train sp) = 4 * len (retained_rows features target) / 5
    /\ len (X_test sp)
       = len (retained_rows features target)
         - 4 * len (retained_rows features target) / 5
    /\ 5 * len (X_test sp) < len (retained_rows features target) + 5
    /\ date (X_train sp) ++ date (X_test sp) = date (retained_rows features target)
    /\ y_train sp ++ y_test sp = design_target target
    /\ (forall c col,
          get c (design_matrix features target) = Some col ->
          length col = len (retained_rows features target) ->
          exists tr te,
            get c (X_train sp) = Some tr /\ get c (X_test sp) = Some te
            /\ tr ++ te = col)
    /\ (forall d1 d2,
          In d1 (date (X_train sp)) -> In d2 (date (X_test sp)) -> (d1 < d2)%Z).
Proof.
  intros Ht Lt Hsorted Hn.
  pose proof (split_features_split features target Ht Lt Hn) as Hsp.
  pose proof (len_design_matrix features target) as Ld.
  pose proof (length_design_target features target Lt) as Ly.
  assert (Hd : date (design_matrix features target)
               = date (retained_rows features target)).
  { unfold design_matrix, filled_rows. now rewrite date_select, date_fold_fill. }
  set (n := len (retained_rows features target)) in *.
  assert (B : 4 * n / 5 <= n /\ 5 * (n - 4 * n / 5) < n + 5).
  { pose proof (Nat.div_mod_eq (4 * n) 5).
    pose proof (Nat.mod_upper_bound (4 * n) 5). lia. }
  destruct B as [B1 B2].
  assert (Ln : length (date (design_matrix features target)) = n) by exact Ld.
  assert (Hpart : date (iloc 0 (4 * n / 5) (design_matrix features target))
                  ++ date (iloc (4 * n / 5) n (design_matrix features target))
                  = date (retained_rows features target)).
  { unfold iloc. cbn [date].
    pose proof (slice_partition (date (design_matrix features target)) (4 * n / 5)) as P.
    rewrite Ln in P. rewrite P by lia. exact Hd. }
  eexists. split; [exact Hsp|]. cbn [X_train X_test y_train y_test].
  split; [|split; [|split; [|split; [|split; [|split]]]]].
  - unfold len, iloc. cbn [date]. apply length_slice_prefix. lia.
  - unfold len, iloc, slice. cbn [date]. rewrite length_firstn, length_skipn. lia.
  - unfold len, iloc, slice. cbn [date]. rewrite length_firstn, length_skipn. lia.
  - exact Hpart.
  - pose proof (slice_partition (design_target target) (4 * n / 5)) as P.
    rewrite Ly in P. apply P. lia.
  - intros c col Hc Lc. rewrite !get_iloc, Hc. cbn [option_map].
    do 2 eexists. split; [reflexivity|]. split; [reflexivity|].
    pose proof (slice_partition col (4 * n / 5)) as P.
    rewrite Lc in P. apply P. lia.
  - apply StronglySorted_app_lt. rewrite Hpart.
    unfold retained_rows, boolean_index. cbn [date].
    now apply StronglySorted_compress.
Qed.

(** C9.  With dates in ascending order, the split keeps the rows in order:
    the training partition is the first [floor(0.8 n)] of the [n] rows kept,
    the evaluation partition the remaining [ceil(0.2 n)], each column is cut
    at the same row, and every training date is before every evaluation
    date. *)
Theorem split_is_chronological df s :
  let features := create_forecast_features df in
  let target := shift (-1) s in
  let n := len (retained_rows features target) in
  get "readiness_score" df = Some s ->
  well_formed df ->
  StronglySorted Z.lt (date df) ->
  2 <= n ->
  exists sp,
    (forall fit, forecast_readiness true fit df = (r <- fit sp ;; Ok (Some r)))
    /\ split_features features = Ok (Some sp)
    /\ len (X_train sp) = 4 * n / 5
    /\ len (X_test sp) = n - 4 * n / 5
    /\ 5 * len (X_test sp) < n + 5
    /\ date (X_train sp) ++ date (X_test sp) = date (retained_rows features target)
    /\ y_train sp ++ y_test sp = design_target target
    /\ (forall c col,
          get c (design_matrix features target) = Some col -> length col = n ->
          exists tr te,
            get c (X_train sp) = Some tr /\ get c (X_test sp) = Some te
            /\ tr ++ te = col)
    /\ (forall d1 d2,
          In d1 (date (X_train sp)) -> In d2 (date (X_test sp)) -> (d1 < d2)%Z).
Proof.
  cbv zeta. intros Hs W Hsorted Hn.
  destruct (split_cuts_in_order (create_forecast_features df) (shift (-1) s))
    as (sp & Hsp & Hrest); auto.
  - now apply create_forecast_features_target.
  - unfold len. rewrite length_shift, date_create_forecast_features.
    eauto using well_formed_length.
  - now rewrite date_create_forecast_features.
  - exists sp. split; [|split]; auto.
    intros fit. now apply forecast_readiness_after_split.
Qed.

Lemma split_is_chronological_witness :
  exists sp,
    split_features (create_forecast_features five_days) = Ok (Some sp)
    /\ date (X_train sp) = [1; 2; 3]%Z
    /\ date (X_test sp) = [4]%Z
    /\ (forall d1 d2,
          In d1 (date (X_train sp)) -> In d2 (date (X_test sp)) -> (d1 < d2)%Z).
Proof.
  destruct (split_is_chronological
              five_days five_days_readiness)
    as (sp & _ & E & _ & _ & _ & _ & _ & _ & H).
  - reflexivity.
  - repeat constructor.
  - repeat constructor.
  - vm_compute. lia.
  - exists sp. split; [exact E|].
    assert (E' : split_features (create_forecast_features five_days) = Ok (Some sp))
      by exact E.
    vm_compute in E'. inversion E'; subst sp. cbn [X_train X_test date].
    repeat split; auto.
Defined.

Lemma present_all_absent col :
  Forall (fun x => x = None) col -> present col = [].
Proof. induction 1 as [|x l Hx Hl IH]; [reflexivity|]. now subst x. Qed.

(** C10.  A feature column that is NaN in every row kept has a NaN median,
    so the fill leaves it NaN throughout, and its cells reach the training
    and evaluation matrices as NaN. *)
Theorem all_absent_column_stays_absent df s c col :
  let features := create_forecast_features df in
  let target := shift (-1) s in
  let n := len (retained_rows features target) in
  get "readiness_score" df = Some s ->
  well_formed df ->
  is_feature c = true ->
  get c (retained_rows features target) = Some col ->
  Forall (fun x => x = None) col ->
  median col = None
  /\ get c (filled_rows features target) = Some col
  /\ get c (design_matrix features target) = Some col
  /\ (2 <= n ->
      exists sp tr te,
        split_features features = Ok (Some sp)
        /\ (forall fit, forecast_readiness true fit df = (r <- fit sp ;; Ok (Some r)))
        /\ get c (X_train sp) = Some tr
        /\ get c (X_test sp) = Some te
        /\ tr ++ te = col
        /\ 1 <= length tr
        /\ Forall (fun x => x = None) tr
        /\ Forall (fun x => x = None) te).
Proof.
  cbv zeta. intros Hs W Hf Hc Hall.
  assert (Hp : present col = []) by now apply present_all_absent.
  assert (Hm : median col = None) by (unfold median; now rewrite Hp).
  assert (Hfill : filled_series col = col).
  { unfold filled_series. destruct (any (isna col)); auto.
    rewrite Hm. apply fillna_None. }
  split; [exact Hm|].
  split; [rewrite <- Hfill; now apply get_filled_rows_feature|].
  split; [rewrite <- Hfill; now apply get_design_matrix_feature|].
  intros Hn.
  assert (Ht : get "target_readiness" (create_forecast_features df) = Some (shift (-1) s))
    by now apply create_forecast_features_target.
  assert (Wf : well_formed (create_forecast_features df))
    by now apply well_formed_create_forecast_features.
  assert (Lt : length (shift (-1) s) = len (create_forecast_features df)).
  { unfold len. rewrite length_shift, date_create_forecast_features.
    eauto using well_formed_length. }
  destruct (filled_column_reaches_split _ _ c col Ht Wf Lt Hf Hc Hn)
    as (sp & tr & te & E1 & E2 & E3 & E4 & E5 & _).
  exists sp, tr, te. rewrite Hfill in E4.
  split; [exact E1|].
  split; [intros fit; now apply forecast_readiness_after_split|].
  split; [exact E2|]. split; [exact E3|]. split; [exact E4|].
  split.
  - rewrite E5.
    set (n := len (retained_rows (create_forecast_features df) (shift (-1) s))) in *.
    pose proof (Nat.div_mod_eq (4 * n) 5).
    pose proof (Nat.mod_upper_bound (4 * n) 5). lia.
  - rewrite <- E4 in Hall. apply Forall_app in Hall. exact Hall.
Qed.

Lemma all_absent_column_stays_absent_witness :
  median [None; None; None; None] = None
  /\ get "readiness_lag7"
         (design_matrix (create_forecast_features five_days)
                        (shift (-1) five_days_readiness))
     = Some [None; None; None; None]
  /\ exists sp tr te,
       split_features (create_forecast_features five_days) = Ok (Some sp)
       /\ (forall fit,
             forecast_readiness true fit five_days = (r <- fit sp ;; Ok (Some r)))
       /\ get "readiness_lag7" (X_train sp) = Some tr
       /\ get "readiness_lag7" (X_test sp) = Some te
       /\ tr ++ te = [None; None; None; None]
       /\ 1 <= length tr
       /\ Forall (fun x => x = None) tr
       /\ Forall (fun x => x = None) te.
Proof.
  destruct (all_absent_column_stays_absent
              five_days five_days_readiness
              "readiness_lag7" [None; None; None; None])
    as (H1 & _ & H3 & H4).
  - reflexivity.
  - repeat constructor.
  - reflexivity.
  - vm_compute. reflexivity.
  - repeat constructor.
  - split; [exact H1|]. split; [exact H3|]. apply H4. vm_compute. lia.
Defined.

(** The rows kept are those followed by a row with a readiness value. *)
Lemma kept_positions s i :
  In i (compress (notna (shift (-1) s)) (seq 0 (length s)))
  <-> i < length s /\ nth (S i) s None <> None.
Proof.
  replace (length s) with (length (notna (shift (-1) s))) at 1
    by (now rewrite length_notna, length_shift).
  rewrite compress_seq_In, Nat.sub_0_r, length_notna, length_shift.
  rewrite <- shift_lead_nth. unfold notna.
  destruct (Nat.lt_ge_cases i (length (shift (-1) s))) as [Hi|Hi].
  - rewrite (nth_map_in _ _ i None false) by assumption.
    rewrite length_shift in Hi.
    destruct (nth i (shift (-1) s) None); simpl; intuition (congruence || lia).
  - rewrite length_shift in Hi. intuition lia.
Qed.

(** The example of C10: in a table of at most eight rows every lag-7 column
    is NaN in each row kept. *)
Lemma lag7_absent_in_short_tables df src p s0 s :
  In (src, p) [("readiness_score", "readiness_lag");
               ("sleep_score", "sleep_lag");
               ("activity_score", "activity_lag")] ->
  get "readiness_score" df = Some s ->
  get src df = Some s0 ->
  well_formed df ->
  len df <= 8 ->
  exists col,
    get (p ++ str 7) (retained_rows (create_forecast_features df) (shift (-1) s))
    = Some col
    /\ Forall (fun x => x = None) col.
Proof.
  intros Hsrc Hs Hs0 W Hlen.
  pose proof (well_formed_length df _ s W Hs) as L.
  pose proof (well_formed_length df _ s0 W Hs0) as L0.
  exists (compress (notna (shift (-1) s)) (shift 7 s0)). split.
  - unfold retained_rows. rewrite get_boolean_index.
    rewrite (lag_column df src p 7 s0); auto. simpl; auto.
  - rewrite (compress_positions None)
      by (now rewrite length_notna, !length_shift, L, L0).
    apply Forall_map, Forall_forall. intros i Hi.
    rewrite length_shift, L0, <- L in Hi. apply kept_positions in Hi.
    destruct Hi as [Hi Hnext].
    assert (S i < length s).
    { destruct (Nat.lt_ge_cases (S i) (length s)); auto.
      now rewrite nth_overflow in Hnext. }
    change 7%Z with (Z.of_nat 7). rewrite shift_lag_nth by lia.
    replace (7 <=? i) with false by (symmetry; apply Nat.leb_gt; lia).
    reflexivity.
Qed.

(* ================================================================== *)
(** * Too few rows to split *)

(** No row kept: "No data after feature engineering", and the run goes on. *)
Lemma no_retained_row_skips_training fit df s :
  get "readiness_score" df = Some s ->
  len (retained_rows (create_forecast_features df) (shift (-1) s)) = 0 ->
  forecast_readiness true fit df = Ok None
  /\ main true fit (Some df)
     = Ok (Some {| baselines := calculate_personal_baselines df;
                   anomalies_count :=
                     match detect_anomalies df with Some a => len a | None => 0 end;
                   forecast := None |}).
Proof.
  intros Hs Hn.
  assert (E : forecast_readiness true fit df = Ok None).
  { unfold forecast_readiness. cbn [negb]. cbv zeta.
    rewrite (split_features_empty _ _ (create_forecast_features_target df s Hs) Hn).
    reflexivity. }
  split; [exact E|]. unfold main. cbv zeta. now rewrite E.
Qed.

(** One row kept: [train_test_split] raises, and so does the whole run. *)
Lemma one_retained_row_raises fit df s :
  get "readiness_score" df = Some s ->
  well_formed df ->
  len (retained_rows (create_forecast_features df) (shift (-1) s)) = 1 ->
  forecast_readiness true fit df
  = Raise (ValueError "the resulting train set will be empty")
  /\ main true fit (Some df)
     = Raise (ValueError "the resulting train set will be empty").
Proof.
  intros Hs W Hn.
  assert (E : forecast_readiness true fit df
              = Raise (ValueError "the resulting train set will be empty")).
  { unfold forecast_readiness. cbn [negb]. cbv zeta.
    rewrite (split_features_one_row _ _ (create_forecast_features_target df s Hs)); auto.
    unfold len. rewrite length_shift, date_create_forecast_features.
    eauto using well_formed_length. }
  split; [exact E|]. unfold main. cbv zeta. now rewrite E.
Qed.

(** C1, on the code: with two days of readiness one row is kept, the guard
    of line 98 lets it through, [train_test_split] raises ValueError, and
    [main] ends with that exception before any result is written. *)
Theorem forecast_readiness_raises_on_one_retained_row :
  len (retained_rows (create_forecast_features two_days)
                     (shift (-1) two_days_readiness)) = 1
  /\ (forall fit,
        forecast_readiness true fit two_days
        = Raise (ValueError "the resulting train set will be empty"))
  /\ (forall fit,
        main true fit (Some two_days)
        = Raise (ValueError "the resulting train set will be empty")).
Proof.
  assert (E : len (retained_rows (create_forecast_features two_days)
                                 (shift (-1) two_days_readiness)) = 1)
    by (vm_compute; reflexivity).
  split; [exact E|].
  split; intros fit;
    apply (one_retained_row_raises fit two_days two_days_readiness);
    solve [reflexivity | repeat constructor | exact E].
Qed.

(* ================================================================== *)
(** * The Anomaly Detector *)

Local Open Scope R_scope.

Lemma Rltb_true x y : Rltb x y = true <-> x < y.
Proof. unfold Rltb. destruct (Rlt_dec x y); split; auto; discriminate. Qed.

Lemma Rltb_false x y : Rltb x y = false <-> y <= x.
Proof.
  unfold Rltb. destruct (Rlt_dec x y); split; auto; try discriminate; lra.
Qed.

Lemma length_mask_or a b :
  length a = length b -> length (mask_or a b) = length a.
Proof.
  revert b. induction a as [|x a IH]; intros [|y b] H; simpl in *; auto; try lia.
Qed.

Lemma nth_mask_or a b i :
  length a = length b ->
  nth i (mask_or a b) false = (nth i a false || nth i b false)%bool.
Proof.
  revert b i. induction a as [|x a IH]; intros [|y b] i H; simpl in *; try lia.
  - now destruct i.
  - destruct i; auto.
Qed.

Lemma compress_In {A : Type} (d : A) (mask : list bool) (l : list A) x :
  length mask = length l ->
  In x (compress mask l)
  <-> exists i, (i < length l)%nat /\ nth i l d = x /\ nth i mask false = true.
Proof.
  intros H. rewrite (compress_positions d) by assumption.
  rewrite in_map_iff. rewrite <- H. split.
  - intros (i & E & Hi). apply compress_seq_In in Hi. rewrite Nat.sub_0_r in Hi.
    exists i. intuition lia.
  - intros (i & Hi & E & M). exists i. split; auto.
    apply compress_seq_In. rewrite Nat.sub_0_r. intuition lia.
Qed.

Lemma compress_all_false {A : Type} (mask : list bool) (l : list A) :
  Forall (fun b => b = false) mask -> compress mask l = [].
Proof.
  intros H. revert l. induction H as [|b m Hb Hm IH]; intros [|x l]; simpl; auto.
  subst b. apply IH.
Qed.

Lemma present_In s v : In v (present s) <-> In (Some v) s.
Proof.
  induction s as [|[w|] s IH]; simpl; [tauto| |].
  - rewrite IH. split; intros [E|H]; auto; left; congruence.
  - rewrite IH. split; [auto|]. intros [E|H]; [discriminate|auto].
Qed.

(** The statistics, written out. *)
Lemma mean_formula s :
  mean s = match present s with
           | [] => None
           | _ :: _ => Some (sum (present s) / INR (length (present s)))
           end.
Proof. reflexivity. Qed.

Lemma mean_defined s :
  (1 <= length (present s))%nat ->
  mean s = Some (sum (present s) / INR (length (present s))).
Proof. intros H. rewrite mean_formula. destruct (present s); simpl in *; [lia|auto]. Qed.

Lemma std_undefined s : (length (present s) < 2)%nat -> std s = None.
Proof.
  intros H. unfold std.
  now replace (length (present s) <=? 1)%nat with true
    by (symmetry; apply Nat.leb_le; lia).
Qed.

Lemma std_defined s :
  (2 <= length (present s))%nat ->
  std s
  = Some (sqrt (sum (map (fun x => (x - sum (present s) / INR (length (present s)))²)
                         (present s))
                / (INR (length (present s)) - 1))).
Proof.
  intros H. unfold std.
  replace (length (present s) <=? 1)%nat with false
    by (symmetry; apply Nat.leb_gt; lia).
  do 3 f_equal.
  - f_equal. apply map_ext. intros x. unfold Rsqr. ring.
  - rewrite minus_INR by lia. reflexivity.
Qed.

Lemma std_Some_defined s sd : std s = Some sd -> (2 <= length (present s))%nat.
Proof.
  intros H. destruct (Nat.lt_ge_cases (length (present s)) 2) as [L|L]; auto.
  rewrite std_undefined in H by assumption. discriminate.
Qed.

Lemma sum_nonneg l : Forall (fun x => 0 <= x) l -> 0 <= sum l.
Proof. induction 1; simpl; lra. Qed.

Lemma sum_nonneg_zero l :
  Forall (fun x => 0 <= x) l -> sum l = 0 -> Forall (fun x => x = 0) l.
Proof.
  induction 1 as [|x l Hx Hl IH]; simpl; intros E; constructor.
  - pose proof (sum_nonneg l Hl). lra.
  - apply IH. pose proof (sum_nonneg l Hl). lra.
Qed.

Lemma squares_nonneg (m : R) l : Forall (fun x => 0 <= x) (map (fun x => (x - m)²) l).
Proof. apply Forall_map, Forall_forall. intros x _. apply Rle_0_sqr. Qed.

(** A zero standard deviation means every present value is the mean. *)
Lemma std_zero_all_mean s v :
  std s = Some 0 -> In v (present s) ->
  v = sum (present s) / INR (length (present s)).
Proof.
  intros H Hv. pose proof (std_Some_defined s 0 H) as L.
  rewrite std_defined in H by assumption. inversion H as [E]. clear H.
  set (m := sum (present s) / INR (length (present s))) in *.
  set (n := length (present s)) in *.
  assert (Hn : 0 < INR n - 1).
  { assert (2 <= INR n) by (change 2 with (INR 2); now apply le_INR). lra. }
  pose proof (sum_nonneg _ (squares_nonneg m (present s))) as S0.
  apply sqrt_eq_0 in E.
  - assert (Z : sum (map (fun x => (x - m)²) (present s)) = 0).
    { unfold Rdiv in E. apply Rmult_integral in E. destruct E as [E|E]; auto.
      exfalso. apply Rinv_neq_0_compat in E; auto. lra. }
    pose proof (sum_nonneg_zero _ (squares_nonneg m (present s)) Z) as F.
    rewrite Forall_map, Forall_forall in F. specialize (F v Hv).
    apply Rsqr_0_uniq in F. lra.
  - apply Rmult_le_pos; auto. left. now apply Rinv_0_lt_compat.
Qed.

Lemma sum_constant v l : Forall (fun x => x = v) l -> sum l = INR (length l) * v.
Proof.
  induction 1 as [|x l Hx Hl IH]; [simpl; ring|].
  subst x. cbn [sum fold_right length]. fold (sum l). rewrite IH, S_INR. ring.
Qed.

(** Constant values have a zero standard deviation. *)
Lemma std_constant s v :
  (2 <= length (present s))%nat ->
  Forall (fun x => x = v) (present s) ->
  std s = Some 0.
Proof.
  intros L H. rewrite std_defined by assumption. f_equal.
  rewrite (sum_constant v (present s)) by assumption.
  assert (Hn : INR (length (present s)) <> 0).
  { assert (2 <= INR (length (present s)))
      by (change 2 with (INR 2); now apply le_INR). lra. }
  replace (INR (length (present s)) * v / INR (length (present s))) with v
    by (unfold Rdiv; rewrite Rmult_comm, <- Rmult_assoc, Rinv_l, Rmult_1_l; auto).
  rewrite (sum_constant 0).
  - rewrite Rmult_0_r. unfold Rdiv. rewrite Rmult_0_l. apply sqrt_0.
  - apply Forall_map. eapply Forall_impl; [|exact H].
    intros x ->. unfold Rsqr. ring.
Qed.

Lemma detect_anomalies_mask df col :
  get "readiness_score" df = Some col ->
  detect_anomalies df = Some (boolean_index (anomaly_mask col) df).
Proof. intros H. unfold detect_anomalies. now rewrite H. Qed.

Lemma detect_anomalies_no_column df :
  get "readiness_score" df = None -> detect_anomalies df = None.
Proof. intros H. unfold detect_anomalies. now rewrite H. Qed.

Lemma length_anomaly_mask col : length (anomaly_mask col) = length col.
Proof.
  unfold anomaly_mask, series_lt, series_gt.
  rewrite length_mask_or; now rewrite !length_map.
Qed.

Lemma anomaly_mask_nth col i :
  (i < length col)%nat ->
  nth i (anomaly_mask col) false
  = (lt (nth i col None) (sub (mean col) (mul (Some 2) (std col)))
     || gt (nth i col None) (add (mean col) (mul (Some 2) (std col))))%bool.
Proof.
  intros Hi. unfold anomaly_mask.
  rewrite mean_dropna, std_dropna. unfold series_lt, series_gt.
  rewrite nth_mask_or by now rewrite !length_map.
  now rewrite !(nth_map_in _ col i None false) by assumption.
Qed.

Lemma anomaly_mask_undefined col :
  (length (present col) < 2)%nat ->
  Forall (fun b => b = false) (anomaly_mask col).
Proof.
  intros L. apply Forall_forall. intros b Hb.
  apply (In_nth _ _ false) in Hb. destruct Hb as (i & Hi & <-).
  rewrite length_anomaly_mask in Hi. rewrite anomaly_mask_nth by assumption.
  rewrite std_undefined by assumption.
  unfold mul, sub, add, lift2, gt, lt.
  destruct (mean col); destruct (nth i col None); reflexivity.
Qed.

Lemma anomaly_mask_zero_std col :
  std col = Some 0 -> Forall (fun b => b = false) (anomaly_mask col).
Proof.
  intros H. pose proof (std_Some_defined col 0 H) as L.
  apply Forall_forall. intros b Hb.
  apply (In_nth _ _ false) in Hb. destruct Hb as (i & Hi & <-).
  rewrite length_anomaly_mask in Hi. rewrite anomaly_mask_nth by assumption.
  rewrite H, mean_defined by lia.
  destruct (nth i col None) as [v|] eqn:N; [|reflexivity].
  assert (Hv : In v (present col)).
  { apply present_In. rewrite <- N. now apply nth_In. }
  pose proof (std_zero_all_mean col v H Hv) as E.
  unfold mul, sub, add, lift2, gt, lt. rewrite <- E.
  apply orb_false_iff. split; apply Rltb_false; lra.
Qed.

Lemma anomaly_mask_true col i :
  nth i (anomaly_mask col) false = true
  <-> exists v m sd,
        nth i col None = Some v
        /\ mean (dropna col) = Some m
        /\ std (dropna col) = Some sd
        /\ (v < m - 2 * sd \/ v > m + 2 * sd).
Proof.
  rewrite mean_dropna, std_dropna.
  destruct (Nat.lt_ge_cases i (length col)) as [Hi|Hi].
  - rewrite anomaly_mask_nth by assumption.
    unfold mul, sub, add, lift2, gt, lt.
    destruct (nth i col None) as [v|], (mean col) as [m|], (std col) as [sd|];
      cbn [orb];
      try (split; [discriminate | intros (? & ? & ? & ? & ? & ? & ?); discriminate]).
    rewrite orb_true_iff, !Rltb_true. split.
    + intros H. exists v, m, sd. repeat split; auto.
    + intros (v' & m' & sd' & E1 & E2 & E3 & H).
      inversion E1; inversion E2; inversion E3; subst. destruct H; [left|right]; lra.
  - rewrite nth_overflow by (now rewrite length_anomaly_mask).
    split; [discriminate|]. intros (v & _ & _ & E & _).
    rewrite nth_overflow in E by assumption. discriminate.
Qed.

Lemma anomaly_mask_false col i v m sd :
  nth i col None = Some v ->
  mean (dropna col) = Some m ->
  std (dropna col) = Some sd ->
  nth i (anomaly_mask col) false = false ->
  Rabs (v - m) <= 2 * sd.
Proof.
  intros Hv Hm Hsd Hmask.
  assert (N : ~ (v < m - 2 * sd \/ v > m + 2 * sd)).
  { intros H.
    assert (T : nth i (anomaly_mask col) false = true)
      by (apply anomaly_mask_true; exists v, m, sd; auto).
    congruence. }
  apply Rabs_le. lra.
Qed.

(** C2, as the code has it.  A row is flagged exactly when its readiness is
    present and lies below [mean - 2 sigma] or above [mean + 2 sigma], mean
    and sigma being the mean and the sample standard deviation of the present
    readiness values; the dates flagged are the dates of these rows.  When at
    least two values are present, so that sigma exists, every unflagged
    present value is within [2 sigma] of the mean.  A table without the
    readiness column gets no flags at all. *)
Theorem anomaly_flags_are_two_sigma_outliers df :
  well_formed df ->
  match get "readiness_score" df with
  | None => detect_anomalies df = None
  | Some col =>
      exists flagged mask,
        detect_anomalies df = Some flagged
        /\ flagged = boolean_index mask df
        /\ length mask = len df
        /\ (forall d, In d (date flagged)
                      <-> exists i, (i < len df)%nat /\ nth i (date df) 0%Z = d
                                    /\ nth i mask false = true)
        /\ (forall i, nth i mask false = true
                      <-> exists v m sd,
                            nth i col None = Some v
                            /\ mean (dropna col) = Some m
                            /\ std (dropna col) = Some sd
                            /\ (v < m - 2 * sd \/ v > m + 2 * sd))
        /\ ((2 <= length (present col))%nat ->
            exists m sd,
              mean (dropna col) = Some m
              /\ std (dropna col) = Some sd
              /\ m = sum (present col) / INR (length (present col))
              /\ sd = sqrt (sum (map (fun x => (x - m)²) (present col))
                            / (INR (length (present col)) - 1))
              /\ forall i v,
                   nth i col None = Some v -> nth i mask false = false ->
                   Rabs (v - m) <= 2 * sd)
  end.
Proof.
  intros W. destruct (get "readiness_score" df) as [col|] eqn:Hc;
    [|now apply detect_anomalies_no_column].
  pose proof (well_formed_length df _ col W Hc) as L.
  exists (boolean_index (anomaly_mask col) df), (anomaly_mask col).
  split; [now apply detect_anomalies_mask|].
  split; [reflexivity|].
  split; [now rewrite length_anomaly_mask|].
  split; [|split].
  - intros d. unfold boolean_index. cbn [date].
    apply compress_In. now rewrite length_anomaly_mask.
  - apply anomaly_mask_true.
  - intros Hn. rewrite mean_dropna, std_dropna.
    eexists _, _. split; [apply mean_defined; lia|].
    split; [now apply std_defined|]. split; [reflexivity|]. split; [reflexivity|].
    intros i v Hv Hmask.
    apply (anomaly_mask_false col i); auto.
    + rewrite mean_dropna. apply mean_defined; lia.
    + rewrite std_dropna. now apply std_defined.
Qed.

Lemma anomaly_flags_are_two_sigma_outliers_witness :
  exists flagged mask,
    detect_anomalies nine_days = Some flagged
    /\ flagged = boolean_index mask nine_days
    /\ length mask = 9%nat
    /\ forall i, nth i mask false = true
                 <-> exists v m sd,
                       nth i nine_days_readiness None = Some v
                       /\ mean (dropna nine_days_readiness) = Some m
                       /\ std (dropna nine_days_readiness) = Some sd
                       /\ (v < m - 2 * sd \/ v > m + 2 * sd).
Proof.
  pose proof (anomaly_flags_are_two_sigma_outliers nine_days) as H.
  change (get "readiness_score" nine_days) with (Some nine_days_readiness) in H.
  destruct H as (flagged & mask & H1 & H2 & H3 & _ & H5 & _).
  - repeat constructor.
  - exists flagged, mask. auto.
Defined.

(** C2, as stated, fails where sigma is undefined: with a single reading the
    row is present and unflagged, yet no sample standard deviation exists
    for its distance from the mean to be compared with. *)
Lemma single_reading_unflagged_without_sigma :
  get "readiness_score" one_day = Some one_day_readiness
  /\ nth 0 one_day_readiness None = Some 70
  /\ detect_anomalies one_day = Some (boolean_index [false] one_day)
  /\ std (dropna one_day_readiness) = None
  /\ ~ (exists m sd,
          mean (dropna one_day_readiness) = Some m
          /\ std (dropna one_day_readiness) = Some sd
          /\ Rabs (70 - m) <= 2 * sd).
Proof.
  split; [reflexivity|]. split; [reflexivity|].
  split; [vm_compute; reflexivity|].
  split; [reflexivity|].
  intros (m & sd & _ & E & _). discriminate E.
Qed.

(** C3.  With fewer than two present readiness values the standard deviation
    is undefined, and with a zero standard deviation (all present values
    equal) the thresholds coincide with the mean: in both cases no row is
    flagged, and the detector returns the empty table. *)
Theorem degenerate_sigma_flags_nothing df col :
  get "readiness_score" df = Some col ->
  ((length (present col) < 2)%nat
   \/ std (dropna col) = Some 0
   \/ exists v, Forall (fun x => x = v) (present col)) ->
  ((length (present col) < 2)%nat -> std (dropna col) = None)
  /\ exists flagged,
       detect_anomalies df = Some flagged
       /\ len flagged = 0%nat
       /\ forall c cells, get c flagged = Some cells -> cells = [].
Proof.
  intros Hc Hdeg. rewrite std_dropna in *.
  split; [apply std_undefined|].
  assert (F : Forall (fun b => b = false) (anomaly_mask col)).
  { destruct Hdeg as [L|[Z|[v C]]].
    - now apply anomaly_mask_undefined.
    - now apply anomaly_mask_zero_std.
    - destruct (Nat.lt_ge_cases (length (present col)) 2) as [L|L].
      + now apply anomaly_mask_undefined.
      + apply anomaly_mask_zero_std. now apply (std_constant col v). }
  exists (boolean_index (anomaly_mask col) df).
  split; [now apply detect_anomalies_mask|].
  split.
  - unfold len, boolean_index. cbn [date]. now rewrite compress_all_false.
  - intros c cells. rewrite get_boolean_index.
    destruct (get c df); cbn [option_map]; [|discriminate].
    rewrite compress_all_false by assumption. congruence.
Qed.

Lemma degenerate_sigma_flags_nothing_witness :
  ((length (present one_day_readiness) < 2)%nat
   -> std (dropna one_day_readiness) = None)
  /\ exists flagged,
       detect_anomalies one_day = Some flagged
       /\ len flagged = 0%nat
       /\ forall c cells, get c flagged = Some cells -> cells = [].
Proof.
  apply (degenerate_sigma_flags_nothing one_day one_day_readiness).
  - reflexivity.
  - left. simpl. lia.
Defined.

(* ================================================================== *)
(** * The Baseline Estimator *)

Lemma insert_sorted_perm x l : Permutation (x :: l) (insert_sorted x l).
Proof.
  induction l as [|y l IH]; simpl; auto.
  destruct (Rle_dec x y); auto.
  rewrite perm_swap. now constructor.
Qed.

Lemma sort_values_perm l : Permutation l (sort_values l).
Proof.
  induction l as [|x l IH]; simpl; auto.
  rewrite <- insert_sorted_perm. now constructor.
Qed.

Lemma insert_sorted_sorted x l : Sorted Rle l -> Sorted Rle (insert_sorted x l).
Proof.
  induction 1 as [|y l Hl IH Hy]; simpl; auto.
  destruct (Rle_dec x y) as [Hxy|Hxy].
  - constructor; auto.
  - constructor; auto.
    assert (y <= x) by lra.
    destruct l as [|z l]; simpl; auto.
    inversion Hy; subst. destruct (Rle_dec x z); auto.
Qed.

Lemma sort_values_sorted l : Sorted Rle (sort_values l).
Proof. induction l as [|x l IH]; simpl; auto using insert_sorted_sorted. Qed.

Lemma length_sort_values l : length (sort_values l) = length l.
Proof. symmetry. apply Permutation_length, sort_values_perm. Qed.

Lemma median_formula s :
  median s
  = match length (present s) with
    | O => None
    | S _ =>
        if Nat.even (length (present s))
        then Some ((nth (length (present s) / 2 - 1) (sort_values (present s)) 0
                    + nth (length (present s) / 2) (sort_values (present s)) 0) / 2)
        else Some (nth (length (present s) / 2) (sort_values (present s)) 0)
    end.
Proof. unfold median. cbv zeta. now rewrite length_sort_values. Qed.

Lemma dict_get_add_baseline_other m column metric df b :
  String.eqb m metric = false ->
  dict_get m (add_baseline column metric df b) = dict_get m b.
Proof.
  intros H. unfold add_baseline. destruct (get column df); auto.
  now apply dict_get_set_other.
Qed.

Lemma dict_get_add_baseline_same column metric df b :
  dict_get metric (add_baseline column metric df b)
  = match get column df with
    | Some s => Some (baseline_of s)
    | None => dict_get metric b
    end.
Proof.
  unfold add_baseline. destruct (get column df); auto.
  apply dict_get_set_same.
Qed.

(** The entry of a metric is the baseline of its column when the table has
    the column, and is missing when it has not. *)
Lemma baseline_entry df column metric :
  In (column, metric) [("readiness_score", "readiness");
                       ("sleep_score", "sleep");
                       ("activity_score", "activity")] ->
  dict_get metric (calculate_personal_baselines df)
  = option_map baseline_of (get column df).
Proof.
  intros H. unfold calculate_personal_baselines. cbv zeta. simpl in H.
  destruct H as [E|[E|[E|[]]]]; apply pair_equal_spec in E; destruct E as [<- <-].
  - rewrite 2 dict_get_add_baseline_other by reflexivity.
    rewrite dict_get_add_baseline_same. now destruct (get _ df).
  - rewrite dict_get_add_baseline_other by reflexivity.
    rewrite dict_get_add_baseline_same.
    destruct (get "sleep_score" df); auto.
    now rewrite dict_get_add_baseline_other by reflexivity.
  - rewrite dict_get_add_baseline_same.
    destruct (get "activity_score" df); auto.
    now rewrite 2 dict_get_add_baseline_other by reflexivity.
Qed.

(** C4, as the code has it.  A metric whose column is not in the table has no
    entry.  A metric whose column is in the table has one: its mean, median
    and standard deviation are taken over the present values of the column,
    the standard deviation with the [n - 1] divisor, and each is NaN when
    there are too few present values for it, so a column that holds no value
    at all is reported with three NaN. *)
Theorem baselines_follow_the_columns df column metric :
  In (column, metric) [("readiness_score", "readiness");
                       ("sleep_score", "sleep");
                       ("activity_score", "activity")] ->
  match get column df with
  | None => dict_get metric (calculate_personal_baselines df) = None
  | Some s =>
      exists b,
        dict_get metric (calculate_personal_baselines df) = Some b
        /\ b_mean b = mean (dropna s)
        /\ b_median b = median (dropna s)
        /\ b_std b = std (dropna s)
        /\ (present s = [] ->
            b_mean b = None /\ b_median b = None /\ b_std b = None)
        /\ ((1 <= length (present s))%nat ->
            b_mean b = Some (sum (present s) / INR (length (present s)))
            /\ exists sorted,
                 Permutation (present s) sorted /\ Sorted Rle sorted
                 /\ b_median b
                    = if Nat.even (length sorted)
                      then Some ((nth (length sorted / 2 - 1) sorted 0
                                  + nth (length sorted / 2) sorted 0) / 2)
                      else Some (nth (length sorted / 2) sorted 0))
        /\ ((length (present s) < 2)%nat -> b_std b = None)
        /\ ((2 <= length (present s))%nat ->
            b_std b
            = Some (sqrt (sum (map (fun x =>
                                      (x - sum (present s) / INR (length (present s)))²)
                                   (present s))
                          / (INR (length (present s)) - 1))))
  end.
Proof.
  intros H. rewrite (baseline_entry df column metric H).
  destruct (get column df) as [s|]; cbn [option_map]; [|reflexivity].
  exists (baseline_of s). unfold baseline_of. cbn [b_mean b_median b_std].
  rewrite mean_dropna, median_dropna, std_dropna.
  repeat (split; [reflexivity|]).
  split; [|split; [|split]].
  - intros E. unfold mean, median, std. rewrite E. auto.
  - intros L. split; [now apply mean_defined|].
    exists (sort_values (present s)).
    split; [apply sort_values_perm|]. split; [apply sort_values_sorted|].
    rewrite median_formula, length_sort_values.
    destruct (length (present s)); [lia|reflexivity].
  - apply std_undefined.
  - apply std_defined.
Qed.

Lemma baselines_follow_the_columns_witness :
  exists b,
    dict_get "sleep" (calculate_personal_baselines nine_days) = Some b
    /\ b_mean b = mean (dropna nine_days_sleep)
    /\ b_median b = median (dropna nine_days_sleep)
    /\ b_std b = std (dropna nine_days_sleep).
Proof.
  pose proof (baselines_follow_the_columns nine_days "sleep_score" "sleep") as H.
  change (get "sleep_score" nine_days) with (Some nine_days_sleep) in H.
  destruct H as (b & H1 & H2 & H3 & H4 & _).
  - simpl; auto.
  - exists b. auto.
Defined.

(** C4, as stated, fails on a column that is in the table and empty of
    values: readiness is absent from every record, and still has an entry,
    of three NaN. *)
Lemma unmeasured_metric_is_reported :
  get "readiness_score" readiness_unmeasured = Some [None; None]
  /\ present [None; None] = []
  /\ dict_get "readiness" (calculate_personal_baselines readiness_unmeasured)
     = Some {| b_mean := None; b_median := None; b_std := None |}.
Proof. repeat split. Qed.

(* ================================================================== *)
(** * The scenarios of the specification, run on the model *)

Ltac decide_order :=
  repeat (cbn [insert_sorted];
          match goal with
          | |- context [Rle_dec ?x ?y] => destruct (Rle_dec x y); try lra
          end).

Lemma INR_8 : INR 8 = 8.
Proof. change 8%nat with (Z.to_nat 8). rewrite INR_IZR_INZ. reflexivity. Qed.

(** The median that fills the sleep column of [five_days]. *)
Example median_of_retained_sleep :
  median [Some 80; None; Some 82; Some 78] = Some 80.
Proof.
  unfold median. cbn [present sort_values fold_right].
  decide_order. reflexivity.
Qed.

Example filled_retained_sleep :
  filled_series [Some 80; None; Some 82; Some 78]
  = [Some 80; Some 80; Some 82; Some 78].
Proof.
  unfold filled_series. cbn [any isna map isna1 existsb orb].
  now rewrite median_of_retained_sleep.
Qed.

Example spike_mean : mean spike_readiness = Some (321 / 4).
Proof.
  unfold mean, spike_readiness. cbn [present sum fold_right length].
  f_equal. rewrite INR_8. lra.
Qed.

Example spike_std : exists sd, std spike_readiness = Some sd /\ 28 < sd < 29.
Proof.
  eexists. split.
  - apply std_defined. simpl. lia.
  - cbn [spike_readiness present length sum fold_right map]. rewrite INR_8.
    replace (_ / (8 - 1)) with (11135 / 14) by (unfold Rsqr; field).
    split.
    + rewrite <- (sqrt_square 28) at 1 by lra. apply sqrt_lt_1_alt. lra.
    + rewrite <- (sqrt_square 29) at 1 by lra. apply sqrt_lt_1_alt. lra.
Qed.

(** The spike, and nothing else, is flagged. *)
Example spike_is_the_only_anomaly :
  detect_anomalies spike_week
  = Some (boolean_index [false; false; false; false; true; false; false; false]
                        spike_week)
  /\ date (boolean_index [false; false; false; false; true; false; false; false]
                         spike_week) = [5%Z].
Proof.
  split; [|reflexivity].
  rewrite (detect_anomalies_mask spike_week spike_readiness) by reflexivity.
  do 2 f_equal.
  destruct spike_std as (sd & Hsd & Hb).
  pose proof (length_anomaly_mask spike_readiness) as L.
  apply (nth_ext _ _ false false); [exact L|].
  intros i Hi. rewrite L in Hi. rewrite anomaly_mask_nth by exact Hi.
  rewrite spike_mean, Hsd. unfold mul, sub, add, lift2, gt, lt.
  do 8 (destruct i as [|i];
        [cbn [nth spike_readiness];
         first [ apply orb_false_iff; split; apply Rltb_false; lra
               | apply orb_true_iff; right; apply Rltb_true; lra ] |]).
  cbn [length spike_readiness] in Hi. lia.
Qed.

(** A constant readiness has a zero standard deviation and no anomaly. *)
Example steady_days_have_no_anomaly :
  std steady_readiness = Some 0
  /\ exists flagged, detect_anomalies steady_days = Some flagged /\ len flagged = 0%nat.
Proof.
  assert (Z : std steady_readiness = Some 0).
  { apply (std_constant steady_readiness 70).
    - simpl. lia.
    - repeat constructor. }
  split; [exact Z|].
  exists (boolean_index (anomaly_mask steady_readiness) steady_days).
  split; [now apply detect_anomalies_mask|].
  unfold len, boolean_index. cbn [date].
  now rewrite compress_all_false by (now apply anomaly_mask_zero_std).
Qed.
